(** * RideEntranceExitPlaceAction: a shallow embedding

    Source: src/openrct2/actions/RideEntranceExitPlaceAction.cpp.

    The three entry points of the action ([Query], [Execute] and the static
    [TrackPlaceQuery]) are written in a small monad that threads the game
    state and supports the early [return] of the C++ code.  Functions whose
    bodies live in other translation units (map storage, clearance, land
    ownership, footpaths, the nested remove action, ...) are the fields of
    the [Collaborators] class; constants and coordinate conversions declared
    in headers are the fields of [Constants]. *)

From Stdlib Require Import String.
From Stdlib Require Import ZArith Lia List Bool.
From stdpp Require Import base decidable option gmap.
Import ListNotations.

Local Open Scope Z_scope.

(** ** Data *)

(** Modelled from the spec: the status vocabulary of section 6 (the
    enumeration itself is declared in GameAction.h). *)
Inductive Status : Type :=
  | Ok
  | InvalidParameters
  | NotOwned
  | NotClosed
  | Disallowed
  | NoClearance
  | NoFreeElements.

#[global] Instance Status_eq_dec : EqDecision Status.
Proof. solve_decision. Defined.

(** String identifiers of the shared catalogue.  [STR_CATALOGUE n] stands
    for every other entry (whatever the clearance check or the nested action
    reports). *)
Inductive rct_string_id : Type :=
  | STR_NONE
  | STR_CANT_BUILD_MOVE_EXIT_FOR_THIS_RIDE_ATTRACTION
  | STR_CANT_BUILD_MOVE_ENTRANCE_FOR_THIS_RIDE_ATTRACTION
  | STR_MUST_BE_CLOSED_FIRST
  | STR_NOT_ALLOWED_TO_MODIFY_STATION
  | STR_RIDE_CANT_BUILD_THIS_UNDERWATER
  | STR_TOO_HIGH
  | STR_CATALOGUE (n : nat).

#[global] Instance rct_string_id_eq_dec : EqDecision rct_string_id.
Proof. solve_decision. Defined.

Inductive ExpenditureType : Type :=
  | RideConstruction.

Inductive RideStatus : Type :=
  | Closed
  | Open
  | Testing
  | Simulating.

#[global] Instance RideStatus_eq_dec : EqDecision RideStatus.
Proof. solve_decision. Defined.

Record CoordsXY : Type := mkXY { xy_x : Z; xy_y : Z }.
Record CoordsXYZ : Type := mkXYZ { xyz_xy : CoordsXY; xyz_z : Z }.
Record CoordsXYZD : Type := mkXYZD { xyzd_xyz : CoordsXYZ; xyzd_direction : Z }.
Record CoordsXYRangedZ : Type :=
  mkRangedZ { rz_xy : CoordsXY; rz_baseZ : Z; rz_clearanceZ : Z }.
Record TileCoordsXYZD : Type :=
  mkTileXYZD { t_x : Z; t_y : Z; t_z : Z; t_direction : Z }.
Record QuarterTile : Type := mkQuarterTile { occupied : Z; zQuarter : Z }.

(** Modelled from the spec: the Result value of section 3 (declared in
    GameAction.h).  A field that no call has set is [None]. *)
Record Result : Type := mkResult {
  Error : Status;
  ErrorTitle : rct_string_id;
  ErrorMessage : rct_string_id;
  ErrorMessageArgs : list Z;
  Position : option CoordsXYZ;
  Cost : option Z;
  Expenditure : option ExpenditureType
}.

(** The overloads of [MakeResult] used by the action. *)
Definition MakeResult : Result :=
  mkResult Ok STR_NONE STR_NONE [] None None None.
Definition MakeResult2 (st : Status) (title : rct_string_id) : Result :=
  mkResult st title STR_NONE [] None None None.
Definition MakeResult3 (st : Status) (title message : rct_string_id) : Result :=
  mkResult st title message [] None None None.
Definition MakeResult4 (st : Status) (title message : rct_string_id)
    (args : list Z) : Result :=
  mkResult st title message args None None None.

Definition set_Position (p : CoordsXYZ) (r : Result) : Result :=
  mkResult (Error r) (ErrorTitle r) (ErrorMessage r) (ErrorMessageArgs r)
           (Some p) (Cost r) (Expenditure r).
Definition set_Expenditure (e : ExpenditureType) (r : Result) : Result :=
  mkResult (Error r) (ErrorTitle r) (ErrorMessage r) (ErrorMessageArgs r)
           (Position r) (Cost r) (Some e).

(** Modelled from the spec: a station owns a base height and the queue
    bookkeeping (Station.h is not among the sources).  Its entrance and exit
    locations are reached only through the getters and setters of Ride.cpp,
    which are collaborators below. *)
Record RideStation : Type := mkStation {
  BaseZ : Z;
  LastPeepInQueue : Z;
  QueueLength : Z
}.

Definition GetBaseZ (st : RideStation) : Z := BaseZ st.

(** [stations] is the C array [RideStation stations[MAX_STATIONS]]: the
    function gives the contents of the slots; a slot exists only below
    MAX_STATIONS (see [station_at]). *)
Record Ride : Type := mkRide {
  status : RideStatus;
  lifecycle_flags : Z;
  stations : nat -> RideStation
}.

Definition ride_id_t := nat.
Definition StationIndex := nat.

(** The entrance element as the setters of [Execute] fill it in. *)
Record EntranceElement : Type := mkEntranceElement {
  el_pos : CoordsXYZ;
  el_occupiedQuadrants : Z;
  el_direction : Z;
  el_clearanceZ : Z;
  el_isExit : bool;
  el_stationIndex : StationIndex;
  el_rideIndex : ride_id_t;
  el_ghost : bool
}.

(** The nested action and the action itself: constructor arguments plus the
    flag word of the GameAction base class. *)
Record RideEntranceExitRemoveAction : Type := mkRemove {
  rm_loc : CoordsXY;
  rm_rideIndex : ride_id_t;
  rm_stationNum : StationIndex;
  rm_isExit : bool;
  rm_flags : Z
}.

Definition SetFlags (f : Z) (a : RideEntranceExitRemoveAction) :=
  mkRemove (rm_loc a) (rm_rideIndex a) (rm_stationNum a) (rm_isExit a) f.

Record RideEntranceExitPlaceAction : Type := mkPlace {
  _loc : CoordsXY;
  _direction : Z;
  _rideIndex : ride_id_t;
  _stationNum : StationIndex;
  _isExit : bool;
  GetFlags : Z
}.

(** ** Game state *)

Inductive MapAnimationType : Type :=
  | MAP_ANIMATION_TYPE_RIDE_ENTRANCE.

(** Calls into other translation units that change the game.  They are
    recorded in the order made; what each one does to its own data (the
    nested remove action to the station and the map, the eviction to the
    guests, ...) is not part of this file and is not replayed here.
    [TileElementInsert_call] carries the element as the setters of lines
    181-186 leave it: no other call comes between the insertion and them. *)
Inductive Effect : Type :=
  | ride_clear_for_construction (ride : ride_id_t)
  | ride_remove_peeps (ride : ride_id_t)
  | ExecuteNested_call (sub : RideEntranceExitRemoveAction)
  | footpath_remove_litter (at_ : CoordsXYZ)
  | wall_remove_at_z (at_ : CoordsXYZ)
  | map_can_construct_apply (range : CoordsXYRangedZ) (flags : Z)
  | TileElementInsert_call (el : EntranceElement)
  | ride_set_exit_location (ride : ride_id_t) (st : StationIndex) (l : TileCoordsXYZD)
  | ride_set_entrance_location (ride : ride_id_t) (st : StationIndex) (l : TileCoordsXYZD)
  | map_animation_create (type : MapAnimationType) (at_ : CoordsXYZ)
  | footpath_queue_chain_reset
  | maze_entrance_hedge_removal (at_ : CoordsXY) (el : EntranceElement)
  | footpath_connect_edges (at_ : CoordsXY) (el : EntranceElement) (flags : Z)
  | footpath_update_queue_chains
  | map_invalidate_tile_full (at_ : CoordsXY).

(** The world: the rides (whose fields the action reads and writes
    directly), the sandbox cheat, and the history of changing calls. *)
Record World : Type := mkWorld {
  rides : gmap nat Ride;
  gCheatsSandboxMode : bool;
  history : list Effect
}.

(** Output slots that are not part of the world: the globals through which
    the clearance check reports, and the diagnostic log. *)
Inductive Warning : Type :=
  | warn_invalid_ride (ride : ride_id_t)
  | warn_invalid_station (st : StationIndex).

Record Slots : Type := mkSlots {
  gMapGroundFlags : Z;
  gGameCommandErrorText : rct_string_id;
  gCommonFormatArgs : list Z;
  diagnostics : list Warning
}.

Record State : Type := mkState { world : World; slots : Slots }.

(** What [map_can_construct_with_clear_at] reports: its boolean, the value
    written through the [cost] pointer, and the three globals it sets. *)
Record Clearance : Type := mkClearance {
  cl_ok : bool;
  cl_cost : Z;
  cl_groundFlags : Z;
  cl_errorText : rct_string_id;
  cl_formatArgs : list Z
}.

(** ** Constants and collaborators *)

Class Constants : Type := {
  MAX_STATIONS : nat;
  RideEntranceHeight : Z;
  RideExitHeight : Z;
  MaxRideEntranceOrExitHeight : Z;
  GAME_COMMAND_FLAG_APPLY : Z;
  GAME_COMMAND_FLAG_ALLOW_DURING_PAUSED : Z;
  GAME_COMMAND_FLAG_GHOST : Z;
  RIDE_LIFECYCLE_INDESTRUCTIBLE_TRACK : Z;
  ELEMENT_IS_UNDERWATER : Z;
  MONEY32_UNDEFINED : Z;
  SPRITE_INDEX_NULL : Z;
  ToTileCentre : CoordsXY -> CoordsXY;
  isNull : TileCoordsXYZD -> bool;
  ToCoordsXY : TileCoordsXYZD -> CoordsXY;
  ToTileCoordsXYZD : CoordsXYZD -> TileCoordsXYZD
}.

(** Every answer is a function of the world, history included, so that an
    earlier change can alter a later answer.  Calls made without the apply
    flag answer and leave the world as it is. *)
Class Collaborators : Type := {
  MapCheckCapacityAndReorganise : World -> CoordsXY -> bool;
  LocationValid : CoordsXY -> bool;
  map_is_location_owned : World -> CoordsXYZ -> bool;
  map_can_construct_with_clear_at :
    World -> CoordsXYRangedZ -> QuarterTile -> Z -> Clearance;
  tile_element_height : World -> CoordsXY -> Z;
  ride_get_entrance_location : World -> ride_id_t -> StationIndex -> TileCoordsXYZD;
  ride_get_exit_location : World -> ride_id_t -> StationIndex -> TileCoordsXYZD;
  QueryNested : World -> RideEntranceExitRemoveAction -> Result;
  ExecuteNested : World -> RideEntranceExitRemoveAction -> Result;
  TileElementInsert : World -> CoordsXYZ -> Z -> bool
}.

(** ** The monad: state, early return, abort *)

Inductive Fault : Type :=
  | OutOfBounds       (* stations[i] with i outside the array *)
  | AssertionFailed.  (* Guard::Assert on a false condition *)

Inductive Flow (A : Type) : Type :=
  | Next (a : A)
  | Return (r : Result)
  | Abort (f : Fault).
Arguments Next {A} a.
Arguments Return {A} r.
Arguments Abort {A} f.

Definition M (A : Type) : Type := State -> Flow A * State.

Definition ret {A} (a : A) : M A := fun s => (Next a, s).
Definition bind {A B} (m : M A) (k : A -> M B) : M B :=
  fun s =>
    match m s with
    | (Next a, s') => k a s'
    | (Return r, s') => (Return r, s')
    | (Abort f, s') => (Abort f, s')
    end.
Definition return_ {A} (r : Result) : M A := fun s => (Return r, s).
Definition abort {A} (f : Fault) : M A := fun s => (Abort f, s).
Definition when (c : bool) (m : M unit) : M unit := if c then m else ret tt.

Declare Scope action_scope.
Delimit Scope action_scope with action.
Notation "x <- m ;; k" := (bind m (fun x => k))
  (at level 100, m at next level, right associativity) : action_scope.
Notation "m ;; k" := (bind m (fun _ => k))
  (at level 100, right associativity) : action_scope.

(** What a call of one of the three functions leaves: a Result, or a fault. *)
Inductive Outcome : Type :=
  | Returned (r : Result)
  | Faulted (f : Fault).

Definition call (body : M Result) (s : State) : Outcome * State :=
  match body s with
  | (Next r, s') => (Returned r, s')
  | (Return r, s') => (Returned r, s')
  | (Abort f, s') => (Faulted f, s')
  end.

(** State access. *)
Definition ask {A} (f : World -> A) : M A := fun s => (Next (f (world s)), s).
Definition read_slot {A} (f : Slots -> A) : M A := fun s => (Next (f (slots s)), s).

Definition record (e : Effect) (w : World) : World :=
  mkWorld (rides w) (gCheatsSandboxMode w) (history w ++ [e]).

Definition emit (e : Effect) : M unit := fun s =>
  (Next tt, mkState (record e (world s)) (slots s)).

Definition log_warning (w : Warning) : M unit := fun s =>
  (Next tt,
   mkState (world s)
           (mkSlots (gMapGroundFlags (slots s)) (gGameCommandErrorText (slots s))
                    (gCommonFormatArgs (slots s)) (diagnostics (slots s) ++ [w]))).

Definition report_clearance (c : Clearance) : M unit := fun s =>
  (Next tt,
   mkState (world s)
           (mkSlots (cl_groundFlags c) (cl_errorText c) (cl_formatArgs c)
                    (diagnostics (slots s)))).

Definition alter_ride (id : ride_id_t) (f : Ride -> Ride) : M unit := fun s =>
  (Next tt,
   mkState (mkWorld (alter f id (rides (world s))) (gCheatsSandboxMode (world s))
                    (history (world s)))
           (slots s)).

(** Two's-complement narrowing of an [int32_t] to [int16_t]. *)
Definition int16_of (z : Z) : Z := (z + 32768) mod 65536 - 32768.

(** Bit tests as the C code writes them: [flags & MASK] used as a boolean. *)
Definition has_flag (flags mask : Z) : bool := negb (Z.land flags mask =? 0).

(** The setters of the freshly inserted element. *)
Definition SetDirection (d : Z) (e : EntranceElement) : EntranceElement :=
  mkEntranceElement (el_pos e) (el_occupiedQuadrants e) d (el_clearanceZ e)
    (el_isExit e) (el_stationIndex e) (el_rideIndex e) (el_ghost e).
Definition SetClearanceZ (z : Z) (e : EntranceElement) : EntranceElement :=
  mkEntranceElement (el_pos e) (el_occupiedQuadrants e) (el_direction e) z
    (el_isExit e) (el_stationIndex e) (el_rideIndex e) (el_ghost e).
Definition SetEntranceType (isExit : bool) (e : EntranceElement) : EntranceElement :=
  mkEntranceElement (el_pos e) (el_occupiedQuadrants e) (el_direction e)
    (el_clearanceZ e) isExit (el_stationIndex e) (el_rideIndex e) (el_ghost e).
Definition SetStationIndex (i : StationIndex) (e : EntranceElement) : EntranceElement :=
  mkEntranceElement (el_pos e) (el_occupiedQuadrants e) (el_direction e)
    (el_clearanceZ e) (el_isExit e) i (el_rideIndex e) (el_ghost e).
Definition SetRideIndex (r : ride_id_t) (e : EntranceElement) : EntranceElement :=
  mkEntranceElement (el_pos e) (el_occupiedQuadrants e) (el_direction e)
    (el_clearanceZ e) (el_isExit e) (el_stationIndex e) r (el_ghost e).
Definition SetGhost (g : bool) (e : EntranceElement) : EntranceElement :=
  mkEntranceElement (el_pos e) (el_occupiedQuadrants e) (el_direction e)
    (el_clearanceZ e) (el_isExit e) (el_stationIndex e) (el_rideIndex e) g.
Definition GetDirection (e : EntranceElement) : Z := el_direction e.

(** The element [TileElementInsert<EntranceElement>] hands back before any
    setter has run. *)
Definition fresh_element (at_ : CoordsXYZ) (quadrants : Z) : EntranceElement :=
  mkEntranceElement at_ quadrants 0 (xyz_z at_) false 0%nat 0%nat false.

Definition errorTitleFor (isExit : bool) : rct_string_id :=
  if isExit then STR_CANT_BUILD_MOVE_EXIT_FOR_THIS_RIDE_ATTRACTION
  else STR_CANT_BUILD_MOVE_ENTRANCE_FOR_THIS_RIDE_ATTRACTION.

(** ** The action *)

Section Action.

Context {K : Constants} {C : Collaborators}.

Local Open Scope action_scope.

Definition get_ride (id : ride_id_t) : M (option Ride) :=
  ask (fun w => rides w !! id).

(** [ride->stations[i]] for reading.  Outside the array the C++ behaviour is
    undefined; the model stops with [OutOfBounds]. *)
Definition station_at (ride : Ride) (i : StationIndex) : M RideStation :=
  if (i <? MAX_STATIONS)%nat then ret (stations ride i) else abort OutOfBounds.

(** [ride->stations[i].field = v]. *)
Definition station_write (id : ride_id_t) (i : StationIndex)
    (f : RideStation -> RideStation) : M unit :=
  if (i <? MAX_STATIONS)%nat
  then alter_ride id (fun r =>
         mkRide (status r) (lifecycle_flags r)
                (fun j => if (j =? i)%nat then f (stations r j) else stations r j))
  else abort OutOfBounds.

Definition Guard_Assert (c : bool) : M unit :=
  if c then ret tt else abort AssertionFailed.

(** [map_can_construct_with_clear_at(range, &map_place_non_scenery_clear_func,
    quarterTile, flags, &cost, CREATE_CROSSING_MODE_NONE)]: sets the three
    globals and yields the boolean and the cost written through the pointer. *)
Definition can_construct_with_clear_at (range : CoordsXYRangedZ)
    (qt : QuarterTile) (flags : Z) : M (bool * Z) :=
  cl <- ask (fun w => map_can_construct_with_clear_at w range qt flags) ;;
  report_clearance cl ;;
  ret (cl_ok cl, cl_cost cl).

Definition station_location (a : RideEntranceExitPlaceAction) : M TileCoordsXYZD :=
  if _isExit a
  then ask (fun w => ride_get_exit_location w (_rideIndex a) (_stationNum a))
  else ask (fun w => ride_get_entrance_location w (_rideIndex a) (_stationNum a)).

Definition remove_action_for (a : RideEntranceExitPlaceAction)
    (location : TileCoordsXYZD) : RideEntranceExitRemoveAction :=
  SetFlags (GetFlags a)
    (mkRemove (ToCoordsXY location) (_rideIndex a) (_stationNum a) (_isExit a) 0).

Definition Query_body (a : RideEntranceExitPlaceAction) : M Result :=
  let errorTitle := errorTitleFor (_isExit a) in
  capacity <- ask (fun w => MapCheckCapacityAndReorganise w (_loc a)) ;;
  when (negb capacity)
    (return_ (MakeResult2 NoFreeElements errorTitle)) ;;
  ride <- get_ride (_rideIndex a) ;;
  match ride with
  | None =>
      log_warning (warn_invalid_ride (_rideIndex a)) ;;
      return_ (MakeResult2 InvalidParameters errorTitle)
  | Some ride =>
      when (MAX_STATIONS <=? _stationNum a)%nat
        (log_warning (warn_invalid_station (_stationNum a)) ;;
         return_ (MakeResult2 InvalidParameters errorTitle)) ;;
      when (negb (bool_decide (status ride = Closed))
            && negb (bool_decide (status ride = Simulating)))
        (return_ (MakeResult3 NotClosed errorTitle STR_MUST_BE_CLOSED_FIRST)) ;;
      when (has_flag (lifecycle_flags ride) RIDE_LIFECYCLE_INDESTRUCTIBLE_TRACK)
        (return_ (MakeResult3 Disallowed errorTitle STR_NOT_ALLOWED_TO_MODIFY_STATION)) ;;
      location <- station_location a ;;
      when (negb (isNull location))
        (let rideEntranceExitRemove := remove_action_for a location in
         result <- ask (fun w => QueryNested w rideEntranceExitRemove) ;;
         when (negb (bool_decide (Error result = Ok))) (return_ result)) ;;
      station <- station_at ride (_stationNum a) ;;
      let z := GetBaseZ station in
      cheat <- ask gCheatsSandboxMode ;;
      owned <- ask (fun w => map_is_location_owned w (mkXYZ (_loc a) z)) ;;
      when (negb (LocationValid (_loc a)) || (negb cheat && negb owned))
        (return_ (MakeResult2 NotOwned errorTitle)) ;;
      let clear_z := z + (if _isExit a then RideExitHeight else RideEntranceHeight) in
      let cost := MONEY32_UNDEFINED in
      clearance <- can_construct_with_clear_at
                     (mkRangedZ (_loc a) z clear_z) (mkQuarterTile 15 0) (GetFlags a) ;;
      let cost := snd clearance in
      when (negb (fst clearance))
        (text <- read_slot gGameCommandErrorText ;;
         args <- read_slot gCommonFormatArgs ;;
         return_ (MakeResult4 NoClearance errorTitle text args)) ;;
      ground <- read_slot gMapGroundFlags ;;
      when (has_flag ground ELEMENT_IS_UNDERWATER)
        (return_ (MakeResult3 Disallowed errorTitle STR_RIDE_CANT_BUILD_THIS_UNDERWATER)) ;;
      when (MaxRideEntranceOrExitHeight <? z)
        (return_ (MakeResult3 Disallowed errorTitle STR_TOO_HIGH)) ;;
      let res := MakeResult in
      let res := set_Position (mkXYZ (ToTileCentre (_loc a)) z) res in
      let res := set_Expenditure RideConstruction res in
      return_ res
  end.

Definition Query (a : RideEntranceExitPlaceAction) (s : State) : Outcome * State :=
  call (Query_body a) s.

(** [GameActions::ExecuteNested(&sub)]: the sub-command runs to completion
    and its Result comes back. *)
Definition ExecuteNested_run (sub : RideEntranceExitRemoveAction) : M Result :=
  result <- ask (fun w => ExecuteNested w sub) ;;
  emit (ExecuteNested_call sub) ;;
  ret result.

Definition Execute_body (a : RideEntranceExitPlaceAction) : M Result :=
  let errorTitle := errorTitleFor (_isExit a) in
  ride <- get_ride (_rideIndex a) ;;
  match ride with
  | None =>
      log_warning (warn_invalid_ride (_rideIndex a)) ;;
      return_ (MakeResult2 InvalidParameters errorTitle)
  | Some ride =>
      when (negb (has_flag (GetFlags a) GAME_COMMAND_FLAG_GHOST))
        (emit (ride_clear_for_construction (_rideIndex a)) ;;
         emit (ride_remove_peeps (_rideIndex a))) ;;
      location <- station_location a ;;
      when (negb (isNull location))
        (let rideEntranceExitRemove := remove_action_for a location in
         result <- ExecuteNested_run rideEntranceExitRemove ;;
         when (negb (bool_decide (Error result = Ok))) (return_ result)) ;;
      station <- station_at ride (_stationNum a) ;;
      let z := GetBaseZ station in
      when (negb (has_flag (GetFlags a) GAME_COMMAND_FLAG_ALLOW_DURING_PAUSED)
            && negb (has_flag (GetFlags a) GAME_COMMAND_FLAG_GHOST))
        (emit (footpath_remove_litter (mkXYZ (_loc a) z)) ;;
         emit (wall_remove_at_z (mkXYZ (_loc a) z))) ;;
      let clear_z := z + (if _isExit a then RideExitHeight else RideEntranceHeight) in
      let range := mkRangedZ (_loc a) z clear_z in
      let apply_flags := Z.lor (GetFlags a) GAME_COMMAND_FLAG_APPLY in
      let cost := MONEY32_UNDEFINED in
      clearance <- can_construct_with_clear_at range (mkQuarterTile 15 0) apply_flags ;;
      let cost := snd clearance in
      emit (map_can_construct_apply range apply_flags) ;;
      when (negb (fst clearance))
        (text <- read_slot gGameCommandErrorText ;;
         args <- read_slot gCommonFormatArgs ;;
         return_ (MakeResult4 NoClearance errorTitle text args)) ;;
      let res := MakeResult in
      let res := set_Position (mkXYZ (ToTileCentre (_loc a)) z) res in
      let res := set_Expenditure RideConstruction res in
      inserted <- ask (fun w => TileElementInsert w (mkXYZ (_loc a) z) 15) ;;
      Guard_Assert inserted ;;
      let entranceElement := fresh_element (mkXYZ (_loc a) z) 15 in
      let entranceElement := SetDirection (_direction a) entranceElement in
      let entranceElement := SetClearanceZ clear_z entranceElement in
      let entranceElement := SetEntranceType (_isExit a) entranceElement in
      let entranceElement := SetStationIndex (_stationNum a) entranceElement in
      let entranceElement := SetRideIndex (_rideIndex a) entranceElement in
      let entranceElement :=
        SetGhost (has_flag (GetFlags a) GAME_COMMAND_FLAG_GHOST) entranceElement in
      emit (TileElementInsert_call entranceElement) ;;
      (if _isExit a
       then
         emit (ride_set_exit_location (_rideIndex a) (_stationNum a)
                 (ToTileCoordsXYZD
                    (mkXYZD (mkXYZ (_loc a) z) (GetDirection entranceElement))))
       else
         emit (ride_set_entrance_location (_rideIndex a) (_stationNum a)
                 (ToTileCoordsXYZD
                    (mkXYZD (mkXYZ (_loc a) z) (GetDirection entranceElement)))) ;;
         station_write (_rideIndex a) (_stationNum a)
           (fun st => mkStation (BaseZ st) SPRITE_INDEX_NULL (QueueLength st)) ;;
         station_write (_rideIndex a) (_stationNum a)
           (fun st => mkStation (BaseZ st) (LastPeepInQueue st) 0) ;;
         emit (map_animation_create MAP_ANIMATION_TYPE_RIDE_ENTRANCE
                 (mkXYZ (_loc a) z))) ;;
      emit footpath_queue_chain_reset ;;
      when (negb (has_flag (GetFlags a) GAME_COMMAND_FLAG_GHOST))
        (emit (maze_entrance_hedge_removal (_loc a) entranceElement)) ;;
      emit (footpath_connect_edges (_loc a) entranceElement (GetFlags a)) ;;
      emit footpath_update_queue_chains ;;
      emit (map_invalidate_tile_full (_loc a)) ;;
      return_ res
  end.

Definition Execute (a : RideEntranceExitPlaceAction) (s : State) : Outcome * State :=
  call (Execute_body a) s.

Definition TrackPlaceQuery_body (loc : CoordsXYZ) (isExit : bool) : M Result :=
  let errorTitle := errorTitleFor isExit in
  capacity <- ask (fun w => MapCheckCapacityAndReorganise w (xyz_xy loc)) ;;
  when (negb capacity)
    (return_ (MakeResult2 NoFreeElements errorTitle)) ;;
  cheat <- ask gCheatsSandboxMode ;;
  owned <- ask (fun w => map_is_location_owned w loc) ;;
  when (negb cheat && negb owned)
    (return_ (MakeResult2 NotOwned errorTitle)) ;;
  let baseZ := int16_of (xyz_z loc) in
  let clearZ := int16_of (baseZ + (if isExit then RideExitHeight else RideEntranceHeight)) in
  let cost := MONEY32_UNDEFINED in
  clearance <- can_construct_with_clear_at
                 (mkRangedZ (xyz_xy loc) baseZ clearZ) (mkQuarterTile 15 0) 0 ;;
  let cost := snd clearance in
  when (negb (fst clearance))
    (text <- read_slot gGameCommandErrorText ;;
     args <- read_slot gCommonFormatArgs ;;
     return_ (MakeResult4 NoClearance errorTitle text args)) ;;
  ground <- read_slot gMapGroundFlags ;;
  when (has_flag ground ELEMENT_IS_UNDERWATER)
    (return_ (MakeResult3 Disallowed errorTitle STR_RIDE_CANT_BUILD_THIS_UNDERWATER)) ;;
  when (MaxRideEntranceOrExitHeight <? baseZ)
    (return_ (MakeResult3 Disallowed errorTitle STR_TOO_HIGH)) ;;
  height <- ask (fun w => tile_element_height w (xyz_xy loc)) ;;
  let res := MakeResult in
  let res := set_Position (mkXYZ (ToTileCentre (xyz_xy loc)) height) res in
  let res := set_Expenditure RideConstruction res in
  return_ res.

Definition TrackPlaceQuery (loc : CoordsXYZ) (isExit : bool) (s : State)
    : Outcome * State :=
  call (TrackPlaceQuery_body loc isExit) s.

End Action.

(** Elements inserted so far, oldest first. *)
Definition inserted_elements (w : World) : list EntranceElement :=
  omap (fun e => match e with TileElementInsert_call el => Some el | _ => None end)
       (history w).

(** The world as [Execute] leaves it after lines 139-143, where it probes the
    station for an existing entrance or exit. *)
Definition after_eviction {K : Constants} (a : RideEntranceExitPlaceAction)
    (w : World) : World :=
  if has_flag (GetFlags a) GAME_COMMAND_FLAG_GHOST then w
  else record (ride_remove_peeps (_rideIndex a))
         (record (ride_clear_for_construction (_rideIndex a)) w).

(** The station's current entrance (or exit) location, as the action asks
    for it. *)
Definition location_in {C : Collaborators} (a : RideEntranceExitPlaceAction)
    (w : World) : TileCoordsXYZD :=
  if _isExit a then ride_get_exit_location w (_rideIndex a) (_stationNum a)
  else ride_get_entrance_location w (_rideIndex a) (_stationNum a).

(** The path condition under which [Query] arrives at its clearance check
    (lines 53-99 all pass) for the ride [ride] found under the action's id. *)
Definition Query_reaches_clearance {K : Constants} {C : Collaborators}
    (a : RideEntranceExitPlaceAction) (w : World) (ride : Ride) : Prop :=
  MapCheckCapacityAndReorganise w (_loc a) = true
  /\ rides w !! _rideIndex a = Some ride
  /\ (_stationNum a < MAX_STATIONS)%nat
  /\ (status ride = Closed \/ status ride = Simulating)
  /\ has_flag (lifecycle_flags ride) RIDE_LIFECYCLE_INDESTRUCTIBLE_TRACK = false
  /\ (isNull (location_in a w) = true
      \/ Error (QueryNested w (remove_action_for a (location_in a w))) = Ok)
  /\ LocationValid (_loc a) = true
  /\ (gCheatsSandboxMode w = true
      \/ map_is_location_owned w
           (mkXYZ (_loc a) (GetBaseZ (stations ride (_stationNum a)))) = true).

(** The clearance volume of the action for a station base height [z]. *)
Definition clearance_range {K : Constants} (a : RideEntranceExitPlaceAction)
    (z : Z) : CoordsXYRangedZ :=
  mkRangedZ (_loc a) z (z + (if _isExit a then RideExitHeight else RideEntranceHeight)).

(** The world as [Execute] leaves it after lines 159-163 (litter and walls
    removed at height [z] unless paused-mode or ghost), starting from [w]. *)
Definition after_litter_removal {K : Constants} (a : RideEntranceExitPlaceAction)
    (z : Z) (w : World) : World :=
  if negb (has_flag (GetFlags a) GAME_COMMAND_FLAG_ALLOW_DURING_PAUSED)
     && negb (has_flag (GetFlags a) GAME_COMMAND_FLAG_GHOST)
  then record (wall_remove_at_z (mkXYZ (_loc a) z))
         (record (footpath_remove_litter (mkXYZ (_loc a) z)) w)
  else w.

(** The flags [Execute] hands to the clearance check. *)
Definition apply_flags {K : Constants} (a : RideEntranceExitPlaceAction) : Z :=
  Z.lor (GetFlags a) GAME_COMMAND_FLAG_APPLY.

(** The element [Execute] inserts for a station base height [z]. *)
Definition placed_element {K : Constants} (a : RideEntranceExitPlaceAction)
    (z : Z) : EntranceElement :=
  mkEntranceElement (mkXYZ (_loc a) z) 15 (_direction a)
    (z + (if _isExit a then RideExitHeight else RideEntranceHeight))
    (_isExit a) (_stationNum a) (_rideIndex a)
    (has_flag (GetFlags a) GAME_COMMAND_FLAG_GHOST).

(** The effects the ghost rule of the spec lists. *)

Definition is_eviction (e : Effect) : bool :=
  match e with
  | ride_clear_for_construction _ | ride_remove_peeps _ => true
  | _ => false
  end.
Definition is_litter_or_wall_removal (e : Effect) : bool :=
  match e with
  | footpath_remove_litter _ | wall_remove_at_z _ => true
  | _ => false
  end.
Definition is_hedge_removal (e : Effect) : bool :=
  match e with maze_entrance_hedge_removal _ _ => true | _ => false end.
Definition is_animation_registration (e : Effect) : bool :=
  match e with map_animation_create _ _ => true | _ => false end.
Definition spares_guests_litter_walls_hedges (e : Effect) : Prop :=
  is_eviction e = false /\ is_litter_or_wall_removal e = false
  /\ is_hedge_removal e = false.

(** The Result every successful path builds: a fresh Result with only the
    position and the expenditure category set. *)
Definition placed_at (xy : CoordsXY) (z : Z) : Result :=
  set_Expenditure RideConstruction (set_Position (mkXYZ xy z) MakeResult).

Definition status_of (o : Outcome) : option Status :=
  match o with Returned r => Some (Error r) | Faulted _ => None end.

(** ** Further path conditions and intermediate worlds *)

(** The path condition under which [Query] arrives at the ownership test of
    line 96 (lines 53-93 all pass). *)
Definition Query_reaches_ownership {K : Constants} {C : Collaborators}
    (a : RideEntranceExitPlaceAction) (w : World) (ride : Ride) : Prop :=
  MapCheckCapacityAndReorganise w (_loc a) = true
  /\ rides w !! _rideIndex a = Some ride
  /\ (_stationNum a < MAX_STATIONS)%nat
  /\ (status ride = Closed \/ status ride = Simulating)
  /\ has_flag (lifecycle_flags ride) RIDE_LIFECYCLE_INDESTRUCTIBLE_TRACK = false
  /\ (isNull (location_in a w) = true
      \/ Error (QueryNested w (remove_action_for a (location_in a w))) = Ok).

(** The same action with another direction. *)
Definition with_direction (d : Z) (a : RideEntranceExitPlaceAction)
    : RideEntranceExitPlaceAction :=
  mkPlace (_loc a) d (_rideIndex a) (_stationNum a) (_isExit a) (GetFlags a).

(** The world as [Execute] leaves it after lines 145-156 when the nested
    removal, if there was one, went through; [w] is the world at line 145. *)
Definition after_removal {K : Constants} {C : Collaborators}
    (a : RideEntranceExitPlaceAction) (w : World) : World :=
  if isNull (location_in a w) then w
  else record (ExecuteNested_call (remove_action_for a (location_in a w))) w.

(** The path condition under which [Execute] arrives at its clearance check:
    the ride is resolved, the nested removal (if any) succeeds and the
    station index lies inside the array. *)
Definition Execute_reaches_clearance {K : Constants} {C : Collaborators}
    (a : RideEntranceExitPlaceAction) (w : World) (ride : Ride) : Prop :=
  rides w !! _rideIndex a = Some ride
  /\ (_stationNum a < MAX_STATIONS)%nat
  /\ (isNull (location_in a (after_eviction a w)) = true
      \/ Error (ExecuteNested (after_eviction a w)
                  (remove_action_for a (location_in a (after_eviction a w)))) = Ok).

(** The world in which [Execute] asks for clearance (line 167), for a
    station base height [z]. *)
Definition world_at_clearance {K : Constants} {C : Collaborators}
    (a : RideEntranceExitPlaceAction) (z : Z) (w : World) : World :=
  after_litter_removal a z (after_removal a (after_eviction a w)).

(** The world in which [Execute] asks for the new element (line 178). *)
Definition world_at_insertion {K : Constants} {C : Collaborators}
    (a : RideEntranceExitPlaceAction) (z : Z) (w : World) : World :=
  record (map_can_construct_apply (clearance_range a z) (apply_flags a))
         (world_at_clearance a z w).

(** The station setter [Execute] calls for the element it placed. *)
Definition station_setter_call {K : Constants} (a : RideEntranceExitPlaceAction)
    (z : Z) : Effect :=
  let l := ToTileCoordsXYZD (mkXYZD (mkXYZ (_loc a) z) (_direction a)) in
  if _isExit a then ride_set_exit_location (_rideIndex a) (_stationNum a) l
  else ride_set_entrance_location (_rideIndex a) (_stationNum a) l.

Definition is_station_setter (e : Effect) : bool :=
  match e with
  | ride_set_exit_location _ _ _ | ride_set_entrance_location _ _ _ => true
  | _ => false
  end.

Definition is_insertion (e : Effect) : bool :=
  match e with TileElementInsert_call _ => true | _ => false end.

(** The clearance volume of [TrackPlaceQuery]: both bounds pass through
    [int16_t] variables. *)
Definition track_range {K : Constants} (loc : CoordsXYZ) (isExit : bool)
    : CoordsXYRangedZ :=
  mkRangedZ (xyz_xy loc) (int16_of (xyz_z loc))
    (int16_of (int16_of (xyz_z loc)
               + (if isExit then RideExitHeight else RideEntranceHeight))).

(** The path condition under which [TrackPlaceQuery] arrives at its
    clearance check. *)
Definition TrackPlaceQuery_reaches_clearance {C : Collaborators}
    (loc : CoordsXYZ) (w : World) : Prop :=
  MapCheckCapacityAndReorganise w (xyz_xy loc) = true
  /\ (gCheatsSandboxMode w = true \/ map_is_location_owned w loc = true).

(** ** Parameters and serialisation *)

(** A DataSerialiser over a byte buffer: when saving, a field is appended;
    when loading, it is read from the front and replaces the field. *)
Record DataSerialiser : Type := mkStream {
  IsSaving : bool;
  stream_bytes : list Z
}.

(** The byte codecs of DataSerialiser for the types of the action's fields
    (DataSerialiserTraits), and the one [GameAction::Serialise] applies to
    the state of the base class, which here is the flag word.  A decoder
    yields the value and the bytes left, or nothing when it cannot read. *)
Class Wire : Type := {
  encode_GameAction : Z -> list Z;
  decode_GameAction : list Z -> option (Z * list Z);
  encode_CoordsXY : CoordsXY -> list Z;
  decode_CoordsXY : list Z -> option (CoordsXY * list Z);
  encode_Direction : Z -> list Z;
  decode_Direction : list Z -> option (Z * list Z);
  encode_ride_id_t : ride_id_t -> list Z;
  decode_ride_id_t : list Z -> option (ride_id_t * list Z);
  encode_StationIndex : StationIndex -> list Z;
  decode_StationIndex : list Z -> option (StationIndex * list Z);
  encode_bool : bool -> list Z;
  decode_bool : list Z -> option (bool * list Z)
}.

(** [stream << DS_TAG(field)]. *)
Definition DS_TAG {T : Type} (encode : T -> list Z)
    (decode : list Z -> option (T * list Z)) (field : T) (stream : DataSerialiser)
    : option (T * DataSerialiser) :=
  if IsSaving stream
  then Some (field, mkStream true (stream_bytes stream ++ encode field))
  else match decode (stream_bytes stream) with
       | Some (v, rest) => Some (v, mkStream false rest)
       | None => None
       end.

(** [Serialise]: the base class first, then the five fields in the order of
    line 46.  The action comes back with the fields the stream gave it. *)
Definition Serialise {W : Wire} (a : RideEntranceExitPlaceAction)
    (stream : DataSerialiser) : option (RideEntranceExitPlaceAction * DataSerialiser) :=
  '(flags, stream) ← DS_TAG encode_GameAction decode_GameAction (GetFlags a) stream;
  '(loc, stream) ← DS_TAG encode_CoordsXY decode_CoordsXY (_loc a) stream;
  '(direction, stream) ← DS_TAG encode_Direction decode_Direction (_direction a) stream;
  '(rideIndex, stream) ← DS_TAG encode_ride_id_t decode_ride_id_t (_rideIndex a) stream;
  '(stationNum, stream) ← DS_TAG encode_StationIndex decode_StationIndex (_stationNum a) stream;
  '(isExit, stream) ← DS_TAG encode_bool decode_bool (_isExit a) stream;
  Some (mkPlace loc direction rideIndex stationNum isExit flags, stream).

(** The calls [AcceptParameters] makes on the visitor, one constructor per
    overload of [Visit]. *)
Inductive Visit : Type :=
  | Visit_CoordsXY (param : CoordsXY)
  | Visit_Direction (name : string) (param : Z)
  | Visit_ride_id_t (name : string) (param : ride_id_t)
  | Visit_StationIndex (name : string) (param : StationIndex)
  | Visit_bool (name : string) (param : bool).

Definition AcceptParameters (a : RideEntranceExitPlaceAction) : list Visit :=
  [Visit_CoordsXY (_loc a);
   Visit_Direction "direction"%string (_direction a);
   Visit_ride_id_t "ride"%string (_rideIndex a);
   Visit_StationIndex "station"%string (_stationNum a);
   Visit_bool "isExit"%string (_isExit a)].

(** The bytes of a visited parameter under the codec of its type. *)
Definition wire_of {W : Wire} (v : Visit) : list Z :=
  match v with
  | Visit_CoordsXY p => encode_CoordsXY p
  | Visit_Direction _ p => encode_Direction p
  | Visit_ride_id_t _ p => encode_ride_id_t p
  | Visit_StationIndex _ p => encode_StationIndex p
  | Visit_bool _ p => encode_bool p
  end.

(** ** A small park for the worked examples

    The constants carry the values of the game's headers; the collaborators
    are the simplest ones that show every branch of the action. *)
Module Park.

#[export] Instance constants : Constants := {|
  MAX_STATIONS := 4;
  RideEntranceHeight := 56;
  RideExitHeight := 40;
  MaxRideEntranceOrExitHeight := 1952;
  GAME_COMMAND_FLAG_APPLY := 1;
  GAME_COMMAND_FLAG_ALLOW_DURING_PAUSED := 8;
  GAME_COMMAND_FLAG_GHOST := 64;
  RIDE_LIFECYCLE_INDESTRUCTIBLE_TRACK := 32768;
  ELEMENT_IS_UNDERWATER := 4;
  MONEY32_UNDEFINED := -2147483648;
  SPRITE_INDEX_NULL := 65535;
  ToTileCentre := fun p => mkXY (32 * (xy_x p / 32) + 16) (32 * (xy_y p / 32) + 16);
  isNull := fun l => t_x l =? -32768;
  ToCoordsXY := fun l => mkXY (32 * t_x l) (32 * t_y l);
  ToTileCoordsXYZD := fun c =>
    mkTileXYZD (xy_x (xyz_xy (xyzd_xyz c)) / 32) (xy_y (xyz_xy (xyzd_xyz c)) / 32)
               (xyz_z (xyzd_xyz c) / 8) (xyzd_direction c)
|}.

Definition null_location : TileCoordsXYZD := mkTileXYZD (-32768) 0 0 0.

(** The last thing the history says about the entrance (exit) of a station:
    a setter call gives the location, a nested removal clears it. *)
Fixpoint last_location (isExit : bool) (ride : ride_id_t) (st : StationIndex)
    (h : list Effect) (acc : TileCoordsXYZD) : TileCoordsXYZD :=
  match h with
  | [] => acc
  | ride_set_exit_location r i l :: h' =>
      last_location isExit ride st h'
        (if isExit && (r =? ride)%nat && (i =? st)%nat then l else acc)
  | ride_set_entrance_location r i l :: h' =>
      last_location isExit ride st h'
        (if negb isExit && (r =? ride)%nat && (i =? st)%nat then l else acc)
  | ExecuteNested_call sub :: h' =>
      last_location isExit ride st h'
        (if Bool.eqb (rm_isExit sub) isExit && (rm_rideIndex sub =? ride)%nat
            && (rm_stationNum sub =? st)%nat
         then null_location else acc)
  | _ :: h' => last_location isExit ride st h' acc
  end.

(** The tile column x = 320..351 has no room left; the row y = 640..671 is
    blocked; the row y = 960..991 lies under water; land is owned for
    y < 4096; the remove action refuses station 3. *)
Definition remove_refused (sub : RideEntranceExitRemoveAction) : Result :=
  if (rm_stationNum sub =? 3)%nat
  then MakeResult3 Disallowed (STR_CATALOGUE 1) (STR_CATALOGUE 2)
  else set_Position (mkXYZ (rm_loc sub) 0) MakeResult.

#[export] Instance collaborators : Collaborators := {|
  MapCheckCapacityAndReorganise := fun _ p => negb (xy_x p / 32 =? 10);
  LocationValid := fun p =>
    (0 <=? xy_x p) && (xy_x p <? 8192) && (0 <=? xy_y p) && (xy_y p <? 8192);
  map_is_location_owned := fun _ p => xy_y (xyz_xy p) <? 4096;
  map_can_construct_with_clear_at := fun _ range _ _ =>
    if xy_y (rz_xy range) / 32 =? 20
    then mkClearance false 0 0 (STR_CATALOGUE 7) [1; 2]
    else mkClearance true 120
           (if xy_y (rz_xy range) / 32 =? 30 then 4 else 0) STR_NONE [];
  tile_element_height := fun _ _ => 112;
  ride_get_entrance_location := fun w r i =>
    last_location false r i (history w) null_location;
  ride_get_exit_location := fun w r i =>
    last_location true r i (history w) null_location;
  QueryNested := fun _ sub => remove_refused sub;
  ExecuteNested := fun _ sub => remove_refused sub;
  TileElementInsert := fun _ p _ => negb (xy_x (xyz_xy p) / 32 =? 10)
|}.

Definition station0 : RideStation := mkStation 64 65535 3.

Definition closed_ride : Ride := mkRide Closed 0 (fun _ => station0).
Definition open_ride : Ride := mkRide Open 0 (fun _ => station0).

(** Ride 0 is closed, ride 1 is open; nothing has been built yet. *)
Definition park : World :=
  mkWorld (<[1%nat := open_ride]> (<[0%nat := closed_ride]> ∅)) false [].

(** The same park after an entrance was set for station 0 and for station 3
    of ride 0. *)
Definition park_with_entrances : World :=
  mkWorld (rides park) false
    [ride_set_entrance_location 0%nat 0%nat (mkTileXYZD 3 4 8 1);
     ride_set_entrance_location 0%nat 3%nat (mkTileXYZD 5 4 8 1)].

Definition quiet : Slots := mkSlots 0 STR_NONE [] [].

Definition start (w : World) : State := mkState w quiet.

Definition GHOST : Z := 64.

(** Place the entrance of station [st] of ride [ride] at world (x, y). *)
Definition entrance (x y : Z) (ride : ride_id_t) (st : StationIndex) (flags : Z)
    : RideEntranceExitPlaceAction :=
  mkPlace (mkXY x y) 1 ride st false flags.

Definition exit_ (x y : Z) (ride : ride_id_t) (st : StationIndex) (flags : Z)
    : RideEntranceExitPlaceAction :=
  mkPlace (mkXY x y) 1 ride st true flags.

Definition title_entrance : rct_string_id :=
  STR_CANT_BUILD_MOVE_ENTRANCE_FOR_THIS_RIDE_ATTRACTION.

(** Move the entrance of station 3 of ride 0, which the remove action
    refuses to give up. *)
Definition replace_refused : RideEntranceExitPlaceAction :=
  entrance 100 100 0%nat 3%nat 0.

End Park.

(** Big-endian codecs for the worked examples. *)
Module ParkWire.

Definition be (width : nat) (x : Z) : list Z :=
  map (fun k => (x / 256 ^ Z.of_nat k) mod 256) (rev (seq 0 width)).

Definition unsigned_of (bytes : list Z) : Z :=
  fold_left (fun acc b => 256 * acc + b) bytes 0.

Definition signed32_of (bytes : list Z) : Z :=
  let u := unsigned_of bytes in
  if 2147483648 <=? u then u - 4294967296 else u.

Definition read (width : nat) (bytes : list Z) : option (list Z * list Z) :=
  if (width <=? length bytes)%nat
  then Some (firstn width bytes, skipn width bytes)
  else None.

#[export] Instance wire : Wire := {|
  encode_GameAction := be 4;
  decode_GameAction := fun l => '(b, rest) ← read 4 l; Some (unsigned_of b, rest);
  encode_CoordsXY := fun p => be 4 (xy_x p) ++ be 4 (xy_y p);
  decode_CoordsXY := fun l =>
    '(bx, rest) ← read 4 l;
    '(by_, rest) ← read 4 rest;
    Some (mkXY (signed32_of bx) (signed32_of by_), rest);
  encode_Direction := be 1;
  decode_Direction := fun l => '(b, rest) ← read 1 l; Some (unsigned_of b, rest);
  encode_ride_id_t := fun r => be 2 (Z.of_nat r);
  decode_ride_id_t := fun l =>
    '(b, rest) ← read 2 l; Some (Z.to_nat (unsigned_of b), rest);
  encode_StationIndex := fun i => be 1 (Z.of_nat i);
  decode_StationIndex := fun l =>
    '(b, rest) ← read 1 l; Some (Z.to_nat (unsigned_of b), rest);
  encode_bool := fun b => [if b then 1 else 0];
  decode_bool := fun l => '(b, rest) ← read 1 l; Some (negb (unsigned_of b =? 0), rest)
|}.

End ParkWire.

(** More rides and actions for the worked examples. *)
Module ParkMore.

Import Park.

(** Ride 2 has indestructible track; the stations of ride 3 stand at height
    2000, above the maximum of 1952. *)
Definition fixed_ride : Ride := mkRide Closed 32768 (fun _ => station0).
Definition tall_ride : Ride := mkRide Closed 0 (fun _ => mkStation 2000 65535 0).

Definition big_park : World :=
  mkWorld (<[3%nat := tall_ride]> (<[2%nat := fixed_ride]> (rides park))) false [].

Definition sandbox_park : World := mkWorld (rides park) true [].

Definition PAUSED : Z := 8.

Definition plain_entrance : RideEntranceExitPlaceAction := entrance 100 100 0%nat 0%nat 0.
Definition plain_exit : RideEntranceExitPlaceAction := exit_ 100 100 0%nat 0%nat 0.
Definition blocked_entrance : RideEntranceExitPlaceAction := entrance 100 650 0%nat 0%nat 0.
Definition wet_entrance : RideEntranceExitPlaceAction := entrance 100 970 0%nat 0%nat 0.

(** An exit for station 2 of ride 258, direction 3, ghost and paused flags. *)
Definition sample_action : RideEntranceExitPlaceAction :=
  mkPlace (mkXY 100 (-20)) 3 258%nat 2%nat true 72.

End ParkMore.

(** ** Properties *)

Ltac unfold_action :=
  unfold Query, Execute, TrackPlaceQuery, call, Query_body, Execute_body,
    TrackPlaceQuery_body, can_construct_with_clear_at, ExecuteNested_run,
    station_location, station_at, station_write, Guard_Assert, get_ride,
    bind, when, ask, read_slot, emit, log_warning, report_clearance,
    alter_ride, ret, return_, abort in *.

Ltac split_case :=
  match goal with
  | |- context [if ?b then _ else _] => destruct b eqn:?
  | |- context [match ?o with Some _ => _ | None => _ end] => destruct o eqn:?
  end.

Ltac split_cases := simpl; repeat (split_case; simpl).

Ltac nat_cmp :=
  repeat match goal with
         | H : (_ <=? _)%nat = false |- _ => apply Nat.leb_gt in H
         | H : (_ <=? _)%nat = true |- _ => apply Nat.leb_le in H
         | H : (_ <? _)%nat = false |- _ => apply Nat.ltb_ge in H
         | H : (_ <? _)%nat = true |- _ => apply Nat.ltb_lt in H
         end.

Ltac bool_facts :=
  repeat match goal with
         | H : negb _ = true |- _ => apply negb_true_iff in H
         | H : negb _ = false |- _ => apply negb_false_iff in H
         | H : bool_decide _ = true |- _ => apply bool_decide_eq_true in H
         | H : bool_decide _ = false |- _ => apply bool_decide_eq_false in H
         end.

Ltac absurd_path :=
  exfalso; simpl in *; bool_facts; nat_cmp;
  repeat match goal with
         | H : _ /\ _ |- _ => destruct H
         | H : _ && _ = true |- _ => apply andb_true_iff in H
         | H : _ || _ = true |- _ => apply orb_true_iff in H
         | H : _ && _ = false |- _ => apply andb_false_iff in H
         | H : _ || _ = false |- _ => apply orb_false_iff in H
         | H : _ \/ _ |- _ => destruct H
         | H : negb _ = true |- _ => apply negb_true_iff in H
         | H : negb _ = false |- _ => apply negb_false_iff in H
         | H : bool_decide _ = true |- _ => apply bool_decide_eq_true in H
         | H : bool_decide _ = false |- _ => apply bool_decide_eq_false in H
         end;
  solve [congruence | lia | contradiction].

Section Properties.

Context {K : Constants} {C : Collaborators}.

#[local] Arguments Nat.ltb : simpl never.
#[local] Arguments Nat.leb : simpl never.
#[local] Arguments Z.ltb : simpl never.
#[local] Arguments Z.land : simpl never.
#[local] Arguments Z.lor : simpl never.
#[local] Arguments Z.add : simpl never.

(** Query writes only the output slots. *)
Lemma Query_world (a : RideEntranceExitPlaceAction) (s : State) :
  world (snd (Query a s)) = world s.
Proof.
  unfold_action. split_cases; reflexivity.
Qed.

(** Query's Result is a function of the world alone. *)
Lemma Query_result_ignores_slots (a : RideEntranceExitPlaceAction) (s s' : State) :
  world s' = world s -> fst (Query a s') = fst (Query a s).
Proof.
  destruct s as [w sl], s' as [w' sl']. cbn. intros ->.
  unfold_action. split_cases; reflexivity.
Qed.

(** Inside the array every station access of Query succeeds. *)
Lemma Query_returns (a : RideEntranceExitPlaceAction) (s : State) :
  exists r, fst (Query a s) = Returned r.
Proof.
  unfold_action. split_cases; try (eexists; reflexivity).
  all: exfalso; nat_cmp; lia.
Qed.

(** C3: Query leaves the world as it found it (rides, sandbox flag and the
    history of changing calls, hence also the number of inserted elements),
    it always returns a Result, and asking again, from the same world or from
    the state the first call left, gives the same Result. *)
Theorem Query_is_pure (a : RideEntranceExitPlaceAction) (s : State) :
  world (snd (Query a s)) = world s
  /\ length (inserted_elements (world (snd (Query a s))))
     = length (inserted_elements (world s))
  /\ (exists r, fst (Query a s) = Returned r)
  /\ fst (Query a (snd (Query a s))) = fst (Query a s)
  /\ (forall sl, fst (Query a (mkState (world s) sl)) = fst (Query a s)).
Proof.
  pose proof (Query_world a s) as Hw.
  split; [exact Hw|]. split; [now rewrite Hw|].
  split; [apply Query_returns|]. split.
  - now apply Query_result_ignores_slots.
  - intros sl. now apply Query_result_ignores_slots.
Qed.

(** *** The shape of a successful Result *)

Lemma Query_success (a : RideEntranceExitPlaceAction) (s : State) (r : Result) :
  fst (Query a s) = Returned r -> Error r = Ok ->
  exists ride, rides (world s) !! _rideIndex a = Some ride
    /\ r = placed_at (ToTileCentre (_loc a)) (GetBaseZ (stations ride (_stationNum a))).
Proof.
  unfold_action. split_cases; intros [= <-] Hok;
    try discriminate; bool_facts; try contradiction; eauto.
Qed.

Lemma Execute_success (a : RideEntranceExitPlaceAction) (s : State) (r : Result) :
  fst (Execute a s) = Returned r -> Error r = Ok ->
  exists ride, rides (world s) !! _rideIndex a = Some ride
    /\ r = placed_at (ToTileCentre (_loc a)) (GetBaseZ (stations ride (_stationNum a))).
Proof.
  unfold_action. split_cases; intros [= <-] Hok;
    try discriminate; bool_facts; try contradiction; eauto.
Qed.

Lemma TrackPlaceQuery_success (loc : CoordsXYZ) (isExit : bool) (s : State) (r : Result) :
  fst (TrackPlaceQuery loc isExit s) = Returned r -> Error r = Ok ->
  r = placed_at (ToTileCentre (xyz_xy loc)) (tile_element_height (world s) (xyz_xy loc)).
Proof.
  unfold_action. split_cases; intros [= <-] Hok;
    try discriminate; bool_facts; try contradiction; eauto.
Qed.

(** C9: a successful Result of Query, Execute or TrackPlaceQuery is the fresh
    Result with only position and expenditure set: its cost field is unset,
    whatever cost the clearance check wrote through its pointer. *)
Theorem successful_result_carries_no_cost
    (a : RideEntranceExitPlaceAction) (loc : CoordsXYZ) (isExit : bool)
    (s : State) (r : Result) :
  fst (Query a s) = Returned r
  \/ fst (Execute a s) = Returned r
  \/ fst (TrackPlaceQuery loc isExit s) = Returned r ->
  Error r = Ok ->
  Cost r = None /\ Cost r = Cost MakeResult /\ exists xy z, r = placed_at xy z.
Proof.
  intros [H | [H | H]] Hok.
  - destruct (Query_success a s r H Hok) as (ride & _ & ->). simpl. eauto.
  - destruct (Execute_success a s r H Hok) as (ride & _ & ->). simpl. eauto.
  - rewrite (TrackPlaceQuery_success loc isExit s r H Hok). simpl. eauto.
Qed.

(** C10: on success TrackPlaceQuery reports the terrain height at the tile,
    not the requested height, while Query and Execute report the station's
    base height; two TrackPlaceQuery calls that differ only in the requested
    height and both succeed return the same Result. *)
Theorem success_position_heights
    (a : RideEntranceExitPlaceAction) (loc : CoordsXYZ) (isExit : bool)
    (s : State) (r : Result) :
  Error r = Ok ->
  (fst (TrackPlaceQuery loc isExit s) = Returned r ->
     Position r = Some (mkXYZ (ToTileCentre (xyz_xy loc))
                              (tile_element_height (world s) (xyz_xy loc)))
     /\ forall z' r', fst (TrackPlaceQuery (mkXYZ (xyz_xy loc) z') isExit s) = Returned r' ->
                     Error r' = Ok -> r' = r)
  /\ (fst (Query a s) = Returned r \/ fst (Execute a s) = Returned r ->
      exists ride, rides (world s) !! _rideIndex a = Some ride
        /\ Position r = Some (mkXYZ (ToTileCentre (_loc a))
                                    (GetBaseZ (stations ride (_stationNum a))))).
Proof.
  intros Hok. split.
  - intros H. pose proof (TrackPlaceQuery_success loc isExit s r H Hok) as ->.
    split; [reflexivity|]. intros z' r' H' Hok'.
    now rewrite (TrackPlaceQuery_success _ isExit s r' H' Hok').
  - intros [H | H].
    + destruct (Query_success a s r H Hok) as (ride & Hr & ->). eauto.
    + destruct (Execute_success a s r H Hok) as (ride & Hr & ->). eauto.
Qed.

(** C7: once Query has arrived at the clearance check, a failed clearance
    gives NoClearance with the message the check reported, whatever the
    ground flags say; a passed clearance on ground marked underwater gives
    Disallowed with the underwater message. *)
Theorem underwater_checked_after_clearance
    (a : RideEntranceExitPlaceAction) (s : State) (ride : Ride) :
  Query_reaches_clearance a (world s) ride ->
  let z := GetBaseZ (stations ride (_stationNum a)) in
  let cl := map_can_construct_with_clear_at (world s) (clearance_range a z)
              (mkQuarterTile 15 0) (GetFlags a) in
  (cl_ok cl = false ->
     fst (Query a s)
     = Returned (MakeResult4 NoClearance (errorTitleFor (_isExit a))
                   (cl_errorText cl) (cl_formatArgs cl)))
  /\ (cl_ok cl = true ->
      has_flag (cl_groundFlags cl) ELEMENT_IS_UNDERWATER = true ->
      fst (Query a s)
      = Returned (MakeResult3 Disallowed (errorTitleFor (_isExit a))
                    STR_RIDE_CANT_BUILD_THIS_UNDERWATER)).
Proof.
  unfold Query_reaches_clearance, clearance_range, location_in.
  intros (Hcap & Hride & Hst & Hstatus & Hflag & Hnested & Hvalid & Howned).
  simpl. split.
  - intros Hcl. unfold_action. simpl. rewrite Hcap. simpl. rewrite Hride.
    split_cases; first [reflexivity | absurd_path].
  - intros Hcl Hwater. unfold_action. simpl. rewrite Hcap. simpl. rewrite Hride.
    split_cases; first [reflexivity | absurd_path].
Qed.

(** C6 (as the code has it): when the capacity check at the location passes,
    a station index at or above MAX_STATIONS makes Query return
    InvalidParameters under the action's error title, whatever the ride,
    direction, kind and flags are, and the world stays as it was. *)
Theorem station_index_rejected_after_capacity
    (a : RideEntranceExitPlaceAction) (s : State) :
  (MAX_STATIONS <= _stationNum a)%nat ->
  MapCheckCapacityAndReorganise (world s) (_loc a) = true ->
  fst (Query a s)
  = Returned (MakeResult2 InvalidParameters (errorTitleFor (_isExit a)))
  /\ world (snd (Query a s)) = world s.
Proof.
  intros Hst Hcap. apply Nat.leb_le in Hst.
  split; [|apply Query_world].
  unfold_action. simpl. rewrite Hcap. simpl.
  destruct (rides (world s) !! _rideIndex a); simpl; [|reflexivity].
  rewrite Hst. reflexivity.
Qed.

(** What Execute can return for a ride it has resolved: success, its own
    NoClearance, or the failure of the nested remove action. *)
Lemma Execute_returns (a : RideEntranceExitPlaceAction) (s : State)
    (ride : Ride) (r : Result) :
  rides (world s) !! _rideIndex a = Some ride ->
  fst (Execute a s) = Returned r ->
  Error r = Ok
  \/ (Error r = NoClearance /\ ErrorTitle r = errorTitleFor (_isExit a))
  \/ r = ExecuteNested (after_eviction a (world s))
           (remove_action_for a (location_in a (after_eviction a (world s)))).
Proof.
  intros Hride. unfold after_eviction, location_in. unfold_action. simpl.
  rewrite Hride.
  split_cases; intros [= <-]; try absurd_path; auto.
Qed.

(** C1 (as the code has it): of Query's first four steps Execute repeats the
    choice of the error title and the ride resolution.  For an unknown ride
    it returns the same InvalidParameters Result as Query does once Query's
    capacity check has passed, and leaves the same state.  For a ride it
    resolves, every Result it returns is a success, a NoClearance under the
    action's title, or the nested remove action's own Result: there is no
    NoFreeElements and no station-index InvalidParameters of its making. *)
Theorem Execute_repeats_title_and_ride_resolution
    (a : RideEntranceExitPlaceAction) (s : State) (found : option Ride) :
  rides (world s) !! _rideIndex a = found ->
  match found with
  | None =>
      fst (Execute a s)
      = Returned (MakeResult2 InvalidParameters (errorTitleFor (_isExit a)))
      /\ world (snd (Execute a s)) = world s
      /\ (MapCheckCapacityAndReorganise (world s) (_loc a) = true ->
          Query a s = Execute a s)
  | Some ride =>
      forall r, fst (Execute a s) = Returned r ->
        Error r = Ok
        \/ (Error r = NoClearance /\ ErrorTitle r = errorTitleFor (_isExit a))
        \/ r = ExecuteNested (after_eviction a (world s))
                 (remove_action_for a (location_in a (after_eviction a (world s))))
  end.
Proof.
  intros Hride. destruct found as [ride|].
  - intros r. now apply Execute_returns with ride.
  - unfold_action. simpl. rewrite Hride. simpl.
    repeat split. intros ->. simpl. rewrite Hride. reflexivity.
Qed.

(** C5: with an entrance (exit) already recorded for the station, the action
    builds the remove action for that location, ride, station and kind, gives
    it its own flags, and runs it through QueryNested (in Query, once the
    earlier checks have passed) or ExecuteNested (in Execute).  A Result whose
    status is not Ok is returned as it is, and the state is the one the nested
    call left: nothing further has run. *)
Theorem nested_failure_propagates
    (a : RideEntranceExitPlaceAction) (s : State) (ride : Ride) :
  rides (world s) !! _rideIndex a = Some ride ->
  (forall l, remove_action_for a l
             = mkRemove (ToCoordsXY l) (_rideIndex a) (_stationNum a) (_isExit a)
                        (GetFlags a))
  /\ (let w := world s in
      let sub := remove_action_for a (location_in a w) in
      MapCheckCapacityAndReorganise w (_loc a) = true ->
      (_stationNum a < MAX_STATIONS)%nat ->
      status ride = Closed \/ status ride = Simulating ->
      has_flag (lifecycle_flags ride) RIDE_LIFECYCLE_INDESTRUCTIBLE_TRACK = false ->
      isNull (location_in a w) = false ->
      Error (QueryNested w sub) <> Ok ->
      Query a s = (Returned (QueryNested w sub), s))
  /\ (let w := after_eviction a (world s) in
      let sub := remove_action_for a (location_in a w) in
      isNull (location_in a w) = false ->
      Error (ExecuteNested w sub) <> Ok ->
      Execute a s
      = (Returned (ExecuteNested w sub),
         mkState (record (ExecuteNested_call sub) w) (slots s))).
Proof.
  intros Hride. split; [reflexivity|]. split.
  - simpl. unfold location_in. intros Hcap Hst Hstatus Hflag Hnull Hfail.
    destruct s as [w sl]. simpl in *.
    unfold_action. simpl. rewrite Hcap. simpl. rewrite Hride.
    split_cases; first [reflexivity | absurd_path].
  - simpl. unfold location_in, after_eviction. intros Hnull Hfail.
    destruct s as [w sl]. simpl in *.
    unfold_action. simpl. rewrite Hride.
    split_cases; first [reflexivity | absurd_path].
Qed.

(** C8: Execute reads [ride->stations[_stationNum]] with no test of the index.
    For a ride it has resolved, and unless the nested removal fails first, the
    read falls outside the array exactly when the index is not below
    MAX_STATIONS; Execute then returns no Result at all. *)
Theorem Execute_station_access_unchecked
    (a : RideEntranceExitPlaceAction) (s : State) (ride : Ride) :
  rides (world s) !! _rideIndex a = Some ride ->
  (let w := after_eviction a (world s) in
   isNull (location_in a w) = true
   \/ Error (ExecuteNested w (remove_action_for a (location_in a w))) = Ok) ->
  fst (Execute a s) = Faulted OutOfBounds <-> (MAX_STATIONS <= _stationNum a)%nat.
Proof.
  simpl. unfold location_in, after_eviction. intros Hride Hnested.
  unfold_action. simpl. rewrite Hride.
  destruct (has_flag (GetFlags a) GAME_COMMAND_FLAG_GHOST) eqn:Hghost;
    simpl in Hnested |- *;
    split_cases; split; intros H; try discriminate; nat_cmp;
    first [reflexivity | lia | assumption | absurd_path].
Qed.

Lemma Query_success_station (a : RideEntranceExitPlaceAction) (s : State) (r : Result) :
  fst (Query a s) = Returned r -> Error r = Ok -> (_stationNum a < MAX_STATIONS)%nat.
Proof.
  unfold_action. split_cases; intros [= <-] Hok;
    try discriminate; bool_facts; try contradiction; nat_cmp; lia.
Qed.

(** C2 (as the code has it): after a Query that returned Ok, with no entrance
    (exit) recorded for the station when Execute looks for one, the Execute
    that follows returns Query's very Result (same status, same position)
    exactly when its apply-mode clearance check passes and the insertion
    finds room.  If the clearance check fails it returns NoClearance; if the
    insertion yields no element the assertion stops it. *)
Theorem Query_then_Execute_agree
    (a : RideEntranceExitPlaceAction) (s : State) (ride : Ride) (rq : Result) :
  rides (world s) !! _rideIndex a = Some ride ->
  isNull (location_in a (after_eviction a (world s))) = true ->
  fst (Query a s) = Returned rq ->
  Error rq = Ok ->
  let z := GetBaseZ (stations ride (_stationNum a)) in
  let w := after_litter_removal a z (after_eviction a (world s)) in
  let cl := map_can_construct_with_clear_at w (clearance_range a z)
              (mkQuarterTile 15 0) (apply_flags a) in
  Position rq = Some (mkXYZ (ToTileCentre (_loc a)) z)
  /\ fst (Execute a (snd (Query a s)))
     = if cl_ok cl
       then if TileElementInsert
                 (record (map_can_construct_apply (clearance_range a z) (apply_flags a)) w)
                 (mkXYZ (_loc a) z) 15
            then Returned rq
            else Faulted AssertionFailed
       else Returned (MakeResult4 NoClearance (errorTitleFor (_isExit a))
                        (cl_errorText cl) (cl_formatArgs cl)).
Proof.
  intros Hride Hnull Hq Hok.
  pose proof (Query_success_station a s rq Hq Hok) as Hst.
  apply Nat.ltb_lt in Hst.
  destruct (Query_success a s rq Hq Hok) as (ride' & Hride' & ->).
  rewrite Hride in Hride'. injection Hride' as <-.
  split; [reflexivity|].
  pose proof (Query_world a s) as Hw. clear Hq Hok.
  destruct (snd (Query a s)) as [w1 sl1]. simpl in Hw. subst w1.
  revert Hnull.
  unfold location_in, after_eviction, after_litter_removal, clearance_range, apply_flags.
  unfold_action. simpl. rewrite Hride.
  destruct (has_flag (GetFlags a) GAME_COMMAND_FLAG_GHOST) eqn:Hghost; simpl;
    destruct (_isExit a) eqn:Hexit; simpl; intros Hnull; rewrite Hnull; simpl;
    rewrite Hst; simpl;
    split_cases; first [reflexivity | absurd_path].
Qed.

(** C4 (as the code has it): an Execute with the ghost flag adds to the
    history no eviction (clear-for-construction, peep removal), no litter or
    wall removal and no hedge removal.  When it succeeds, exactly one element
    has been inserted, it carries the ghost marker, and the entrance
    animation has been registered if and only if the element is an entrance
    rather than an exit. *)
Theorem ghost_Execute_effects (a : RideEntranceExitPlaceAction) (s : State) :
  has_flag (GetFlags a) GAME_COMMAND_FLAG_GHOST = true ->
  exists added : list Effect,
    history (world (snd (Execute a s))) = history (world s) ++ added
    /\ Forall spares_guests_litter_walls_hedges added
    /\ forall r, fst (Execute a s) = Returned r -> Error r = Ok ->
         exists ride, rides (world s) !! _rideIndex a = Some ride
           /\ inserted_elements (world (snd (Execute a s)))
              = inserted_elements (world s)
                ++ [placed_element a (GetBaseZ (stations ride (_stationNum a)))]
           /\ el_ghost (placed_element a (GetBaseZ (stations ride (_stationNum a)))) = true
           /\ (Exists (fun e => is_animation_registration e = true) added
               <-> _isExit a = false).
Proof.
  intros Hghost. unfold placed_element, inserted_elements. unfold_action. simpl.
  rewrite Hghost. simpl.
  destruct (rides (world s) !! _rideIndex a) as [ride|] eqn:Hride; simpl.
  2:{ exists []. rewrite app_nil_r. repeat split; [constructor|].
      intros r [= <-]. discriminate. }
  split_cases; try absurd_path;
    (first [ exists []; split; [symmetry; apply app_nil_r|]
           | rewrite <- ?app_assoc; simpl; eexists; split; [reflexivity|] ]);
    (split; [repeat constructor|]);
    intros r [= <-] Hok; try discriminate; try absurd_path;
    (eexists; split; [reflexivity|]); simpl;
    (split; [rewrite omap_app; reflexivity|]); (split; [reflexivity|]);
    rewrite ?Exists_cons, ?Exists_nil; simpl; intuition congruence.
Qed.

End Properties.

(** ** The park: worked examples of every property *)

Module ParkExamples.

Import Park.

(** Scenario C of the spec: the tile is full. *)
Example full_tile_query :
  fst (Query (entrance 330 100 0%nat 0%nat 0) (start park))
  = Returned (MakeResult2 NoFreeElements title_entrance).
Proof. vm_compute. reflexivity. Qed.

(** Ride status Open gives NotClosed. *)
Example open_ride_query :
  fst (Query (entrance 100 100 1%nat 0%nat 0) (start park))
  = Returned (MakeResult3 NotClosed title_entrance STR_MUST_BE_CLOSED_FIRST).
Proof. vm_compute. reflexivity. Qed.

(** Scenario A of the spec: a first entrance for station 0 of the closed
    ride.  The calls Execute makes, in order, and the queue bookkeeping it
    leaves. *)
Example first_entrance_calls :
  history (world (snd (Execute (entrance 100 100 0%nat 0%nat 0) (start park))))
  = let el := mkEntranceElement (mkXYZ (mkXY 100 100) 64) 15 1 120 false 0%nat 0%nat false in
    [ride_clear_for_construction 0%nat;
     ride_remove_peeps 0%nat;
     footpath_remove_litter (mkXYZ (mkXY 100 100) 64);
     wall_remove_at_z (mkXYZ (mkXY 100 100) 64);
     map_can_construct_apply (mkRangedZ (mkXY 100 100) 64 120) 1;
     TileElementInsert_call el;
     ride_set_entrance_location 0%nat 0%nat (mkTileXYZD 3 3 8 1);
     map_animation_create MAP_ANIMATION_TYPE_RIDE_ENTRANCE (mkXYZ (mkXY 100 100) 64);
     footpath_queue_chain_reset;
     maze_entrance_hedge_removal (mkXY 100 100) el;
     footpath_connect_edges (mkXY 100 100) el 0;
     footpath_update_queue_chains;
     map_invalidate_tile_full (mkXY 100 100)].
Proof. vm_compute. reflexivity. Qed.

Example first_entrance_queue :
  (fun r => (LastPeepInQueue (stations r 0%nat), QueueLength (stations r 0%nat)))
    <$> rides (world (snd (Execute (entrance 100 100 0%nat 0%nat 0) (start park)))) !! 0%nat
  = Some (65535, 0).
Proof. vm_compute. reflexivity. Qed.

(** Scenario B of the spec: moving the entrance of station 0 first runs the
    remove action on the old location, with the flags of the action. *)
Example moved_entrance_calls :
  firstn 3 (history (world (snd (Execute (entrance 500 100 0%nat 0%nat 0)
                                   (start park_with_entrances)))))
  = [ride_set_entrance_location 0%nat 0%nat (mkTileXYZD 3 4 8 1);
     ride_set_entrance_location 0%nat 3%nat (mkTileXYZD 5 4 8 1);
     ride_clear_for_construction 0%nat]
  /\ nth_error (history (world (snd (Execute (entrance 500 100 0%nat 0%nat 0)
                                       (start park_with_entrances))))) 4
     = Some (ExecuteNested_call (mkRemove (mkXY 96 128) 0%nat 0%nat false 0))
  /\ ride_get_entrance_location
       (world (snd (Execute (entrance 500 100 0%nat 0%nat 0) (start park_with_entrances))))
       0%nat 0%nat
     = mkTileXYZD 15 3 8 1.
Proof. vm_compute. repeat split. Qed.

(** A station index at the top of the array is still inside it. *)
Example last_station_query :
  fst (Query (entrance 100 100 0%nat 3%nat 0) (start park))
  = Returned (placed_at (mkXY 112 112) 64).
Proof. vm_compute. reflexivity. Qed.

(** Narrowing to [int16_t]. *)
Example int16_of_wraps : int16_of 40000 = -25536 /\ int16_of 200 = 200.
Proof. vm_compute. split; reflexivity. Qed.

(** C1, counterexample: on a full and blocked tile Query fails with
    NoFreeElements where Execute fails with NoClearance; with station index 4
    of 4 Query fails with InvalidParameters where Execute returns nothing (it
    reads outside the station array). *)
Lemma Execute_skips_capacity_and_station_checks :
  (status_of (fst (Query (entrance 330 650 0%nat 0%nat 0) (start park)))
   = Some NoFreeElements
   /\ status_of (fst (Execute (entrance 330 650 0%nat 0%nat 0) (start park)))
      = Some NoClearance)
  /\ (status_of (fst (Query (entrance 100 100 0%nat 4%nat 0) (start park)))
      = Some InvalidParameters
      /\ fst (Execute (entrance 100 100 0%nat 4%nat 0) (start park))
         = Faulted OutOfBounds).
Proof. vm_compute. repeat split. Qed.

Lemma Execute_repeats_title_and_ride_resolution_witness :
  rides (world (start park)) !! _rideIndex (entrance 100 100 9%nat 0%nat 0) = None
  /\ fst (Execute (entrance 100 100 9%nat 0%nat 0) (start park))
     = Returned (MakeResult2 InvalidParameters title_entrance)
  /\ Query (entrance 100 100 9%nat 0%nat 0) (start park)
     = Execute (entrance 100 100 9%nat 0%nat 0) (start park).
Proof.
  split; [reflexivity|].
  pose proof (Execute_repeats_title_and_ride_resolution
                (entrance 100 100 9%nat 0%nat 0) (start park) None eq_refl)
    as (Hexec & _ & Hsame).
  split; [exact Hexec | apply Hsame; reflexivity].
Defined.

(** C2, counterexample: ride 1 is open and its station 0 has no entrance.
    Query refuses with NotClosed and no position; the Execute that follows
    succeeds at the tile centre. *)
Lemma Execute_succeeds_where_Query_refuses :
  isNull (location_in (entrance 100 100 1%nat 0%nat 0) park) = true
  /\ status_of (fst (Query (entrance 100 100 1%nat 0%nat 0) (start park)))
     = Some NotClosed
  /\ fst (Execute (entrance 100 100 1%nat 0%nat 0)
            (snd (Query (entrance 100 100 1%nat 0%nat 0) (start park))))
     = Returned (placed_at (mkXY 112 112) 64).
Proof. vm_compute. repeat split. Qed.

Lemma Query_then_Execute_agree_witness :
  rides (world (start park)) !! _rideIndex (entrance 100 100 0%nat 0%nat 0)
  = Some closed_ride
  /\ isNull (location_in (entrance 100 100 0%nat 0%nat 0)
              (after_eviction (entrance 100 100 0%nat 0%nat 0) (world (start park))))
     = true
  /\ fst (Query (entrance 100 100 0%nat 0%nat 0) (start park))
     = Returned (placed_at (mkXY 112 112) 64)
  /\ fst (Execute (entrance 100 100 0%nat 0%nat 0)
            (snd (Query (entrance 100 100 0%nat 0%nat 0) (start park))))
     = Returned (placed_at (mkXY 112 112) 64).
Proof.
  split; [reflexivity|]. split; [reflexivity|]. split; [reflexivity|].
  pose proof (Query_then_Execute_agree (entrance 100 100 0%nat 0%nat 0)
                (start park) closed_ride (placed_at (mkXY 112 112) 64)
                eq_refl eq_refl eq_refl eq_refl) as (_ & Hexec).
  exact Hexec.
Defined.

(** C4, counterexample: a ghost entrance placement registers the entrance
    animation all the same. *)
Lemma ghost_entrance_registers_animation :
  has_flag (GetFlags (entrance 100 100 0%nat 0%nat GHOST)) GAME_COMMAND_FLAG_GHOST = true
  /\ status_of (fst (Execute (entrance 100 100 0%nat 0%nat GHOST) (start park))) = Some Ok
  /\ In (map_animation_create MAP_ANIMATION_TYPE_RIDE_ENTRANCE (mkXYZ (mkXY 100 100) 64))
        (history (world (snd (Execute (entrance 100 100 0%nat 0%nat GHOST) (start park))))).
Proof. vm_compute. intuition. Qed.

Lemma ghost_Execute_effects_witness :
  has_flag (GetFlags (entrance 100 100 0%nat 0%nat GHOST)) GAME_COMMAND_FLAG_GHOST = true
  /\ exists added : list Effect,
       history (world (snd (Execute (entrance 100 100 0%nat 0%nat GHOST) (start park))))
       = history (world (start park)) ++ added
       /\ Forall spares_guests_litter_walls_hedges added
       /\ inserted_elements
            (world (snd (Execute (entrance 100 100 0%nat 0%nat GHOST) (start park))))
          = [mkEntranceElement (mkXYZ (mkXY 100 100) 64) 15 1 120 false 0%nat 0%nat true].
Proof.
  assert (Hghost : has_flag (GetFlags (entrance 100 100 0%nat 0%nat GHOST))
                    GAME_COMMAND_FLAG_GHOST = true) by reflexivity.
  split; [exact Hghost|].
  destruct (ghost_Execute_effects (entrance 100 100 0%nat 0%nat GHOST) (start park) Hghost)
    as (added & Hhist & Hspare & Hdone).
  exists added. split; [exact Hhist|]. split; [exact Hspare|].
  destruct (Hdone (placed_at (mkXY 112 112) 64) eq_refl eq_refl)
    as (ride & Hride & Hins & _).
  injection Hride as <-. exact Hins.
Defined.

Lemma nested_failure_propagates_witness :
  rides (world (start park_with_entrances)) !! _rideIndex replace_refused
  = Some closed_ride
  /\ Query replace_refused (start park_with_entrances)
     = (Returned (MakeResult3 Disallowed (STR_CATALOGUE 1) (STR_CATALOGUE 2)),
        start park_with_entrances)
  /\ fst (Execute replace_refused (start park_with_entrances))
     = Returned (MakeResult3 Disallowed (STR_CATALOGUE 1) (STR_CATALOGUE 2)).
Proof.
  split; [reflexivity|].
  destruct (nested_failure_propagates replace_refused (start park_with_entrances)
              closed_ride eq_refl) as (_ & HQ & HE).
  split.
  - apply HQ; try reflexivity.
    + vm_compute. lia.
    + left. reflexivity.
    + discriminate.
  - rewrite HE; [reflexivity | reflexivity | discriminate].
Defined.

(** C6, counterexample: station index 7 of 4 on the full tile is answered
    with NoFreeElements, not InvalidParameters; Execute with the same index
    returns no Result. *)
Lemma bad_station_on_full_tile :
  (MAX_STATIONS <= _stationNum (entrance 330 100 0%nat 7%nat 0))%nat
  /\ fst (Query (entrance 330 100 0%nat 7%nat 0) (start park))
     = Returned (MakeResult2 NoFreeElements title_entrance)
  /\ status_of (fst (Query (entrance 330 100 0%nat 7%nat 0) (start park)))
     <> Some InvalidParameters
  /\ status_of (fst (Execute (entrance 100 100 0%nat 7%nat 0) (start park)))
     <> Some InvalidParameters.
Proof. vm_compute. repeat split; try lia; discriminate. Qed.

Lemma station_index_rejected_after_capacity_witness :
  (MAX_STATIONS <= _stationNum (entrance 100 100 0%nat 7%nat 0))%nat
  /\ MapCheckCapacityAndReorganise (world (start park))
       (_loc (entrance 100 100 0%nat 7%nat 0)) = true
  /\ fst (Query (entrance 100 100 0%nat 7%nat 0) (start park))
     = Returned (MakeResult2 InvalidParameters title_entrance).
Proof.
  assert (H : (MAX_STATIONS <= _stationNum (entrance 100 100 0%nat 7%nat 0))%nat)
    by (vm_compute; lia).
  split; [exact H|]. split; [reflexivity|].
  exact (proj1 (station_index_rejected_after_capacity
                  (entrance 100 100 0%nat 7%nat 0) (start park) H eq_refl)).
Defined.

(** The row y = 960..991 is under water and clear; the row y = 640..671 is
    blocked. *)
Lemma underwater_checked_after_clearance_witness :
  Query_reaches_clearance (entrance 100 970 0%nat 0%nat 0) (world (start park)) closed_ride
  /\ fst (Query (entrance 100 970 0%nat 0%nat 0) (start park))
     = Returned (MakeResult3 Disallowed title_entrance
                   STR_RIDE_CANT_BUILD_THIS_UNDERWATER)
  /\ Query_reaches_clearance (entrance 100 650 0%nat 0%nat 0) (world (start park)) closed_ride
  /\ fst (Query (entrance 100 650 0%nat 0%nat 0) (start park))
     = Returned (MakeResult4 NoClearance title_entrance (STR_CATALOGUE 7) [1; 2]).
Proof.
  assert (Hwater : Query_reaches_clearance (entrance 100 970 0%nat 0%nat 0)
                     (world (start park)) closed_ride).
  { unfold Query_reaches_clearance.
    split; [reflexivity|]. split; [reflexivity|]. split; [vm_compute; lia|].
    split; [left; reflexivity|]. split; [reflexivity|].
    split; [left; reflexivity|]. split; [reflexivity|]. right; reflexivity. }
  assert (Hblocked : Query_reaches_clearance (entrance 100 650 0%nat 0%nat 0)
                       (world (start park)) closed_ride).
  { unfold Query_reaches_clearance.
    split; [reflexivity|]. split; [reflexivity|]. split; [vm_compute; lia|].
    split; [left; reflexivity|]. split; [reflexivity|].
    split; [left; reflexivity|]. split; [reflexivity|]. right; reflexivity. }
  split; [exact Hwater|]. split.
  - exact (proj2 (underwater_checked_after_clearance
                    (entrance 100 970 0%nat 0%nat 0) (start park) closed_ride Hwater)
                 eq_refl eq_refl).
  - split; [exact Hblocked|].
    exact (proj1 (underwater_checked_after_clearance
                    (entrance 100 650 0%nat 0%nat 0) (start park) closed_ride Hblocked)
                 eq_refl).
Defined.

Lemma Execute_station_access_unchecked_witness :
  rides (world (start park)) !! _rideIndex (entrance 100 100 0%nat 4%nat 0)
  = Some closed_ride
  /\ isNull (location_in (entrance 100 100 0%nat 4%nat 0)
              (after_eviction (entrance 100 100 0%nat 4%nat 0) (world (start park))))
     = true
  /\ (MAX_STATIONS <= _stationNum (entrance 100 100 0%nat 4%nat 0))%nat
  /\ fst (Execute (entrance 100 100 0%nat 4%nat 0) (start park)) = Faulted OutOfBounds.
Proof.
  assert (Hnull : isNull (location_in (entrance 100 100 0%nat 4%nat 0)
                            (after_eviction (entrance 100 100 0%nat 4%nat 0)
                               (world (start park)))) = true) by reflexivity.
  assert (Hst : (MAX_STATIONS <= _stationNum (entrance 100 100 0%nat 4%nat 0))%nat)
    by (vm_compute; lia).
  split; [reflexivity|]. split; [exact Hnull|]. split; [exact Hst|].
  apply (Execute_station_access_unchecked (entrance 100 100 0%nat 4%nat 0)
           (start park) closed_ride eq_refl (or_introl Hnull)).
  exact Hst.
Defined.

(** The clearance check of the park writes a cost of 120; the Result shows
    none of it. *)
Lemma successful_result_carries_no_cost_witness :
  cl_cost (map_can_construct_with_clear_at park
             (clearance_range (entrance 100 100 0%nat 0%nat 0) 64)
             (mkQuarterTile 15 0) 0) = 120
  /\ fst (Query (entrance 100 100 0%nat 0%nat 0) (start park))
     = Returned (placed_at (mkXY 112 112) 64)
  /\ Error (placed_at (mkXY 112 112) 64) = Ok
  /\ Cost (placed_at (mkXY 112 112) 64) = None.
Proof.
  split; [reflexivity|]. split; [reflexivity|]. split; [reflexivity|].
  exact (proj1 (successful_result_carries_no_cost
                  (entrance 100 100 0%nat 0%nat 0) (mkXYZ (mkXY 100 100) 200) false
                  (start park) (placed_at (mkXY 112 112) 64)
                  (or_introl eq_refl) eq_refl)).
Defined.

(** Requested at height 200, over terrain of height 112, for a station whose
    base height is 64. *)
Lemma success_position_heights_witness :
  Error (placed_at (mkXY 112 112) 112) = Ok
  /\ fst (TrackPlaceQuery (mkXYZ (mkXY 100 100) 200) false (start park))
     = Returned (placed_at (mkXY 112 112) 112)
  /\ Position (placed_at (mkXY 112 112) 112) = Some (mkXYZ (mkXY 112 112) 112)
  /\ fst (TrackPlaceQuery (mkXYZ (mkXY 100 100) 300) false (start park))
     = Returned (placed_at (mkXY 112 112) 112).
Proof.
  assert (Hrun : fst (TrackPlaceQuery (mkXYZ (mkXY 100 100) 200) false (start park))
                 = Returned (placed_at (mkXY 112 112) 112)) by reflexivity.
  assert (Hrun' : fst (TrackPlaceQuery (mkXYZ (mkXY 100 100) 300) false (start park))
                  = Returned (placed_at (mkXY 112 112) 112)) by reflexivity.
  split; [reflexivity|]. split; [exact Hrun|].
  destruct (proj1 (success_position_heights
                     (entrance 100 100 0%nat 0%nat 0) (mkXYZ (mkXY 100 100) 200) false
                     (start park) (placed_at (mkXY 112 112) 112) eq_refl) Hrun)
    as (Hpos & Hsame).
  split; [exact Hpos|]. exact Hrun'.
Defined.

End ParkExamples.

(** ** Further properties of the three entry points *)

Ltac path_facts :=
  repeat match goal with
         | H : _ /\ _ |- _ => destruct H
         | H : _ && _ = true |- _ => apply andb_true_iff in H
         | H : _ || _ = false |- _ => apply orb_false_iff in H
         | H : _ && _ = false |- _ => apply andb_false_iff in H
         | H : _ || _ = true |- _ => apply orb_true_iff in H
         | H : negb _ = true |- _ => apply negb_true_iff in H
         | H : negb _ = false |- _ => apply negb_false_iff in H
         | H : bool_decide _ = true |- _ => apply bool_decide_eq_true in H
         | H : bool_decide _ = false |- _ => apply bool_decide_eq_false in H
         | H : (_ <=? _)%nat = false |- _ => apply Nat.leb_gt in H
         | H : (_ <=? _)%nat = true |- _ => apply Nat.leb_le in H
         | H : (_ <? _)%nat = false |- _ => apply Nat.ltb_ge in H
         | H : (_ <? _)%nat = true |- _ => apply Nat.ltb_lt in H
         | H : (_ <? _)%Z = false |- _ => apply Z.ltb_ge in H
         | H : (_ <? _)%Z = true |- _ => apply Z.ltb_lt in H
         end.

Ltac impossible :=
  exfalso; simpl in *; path_facts;
  repeat match goal with H : _ \/ _ |- _ => destruct H end;
  path_facts; solve [congruence | lia | contradiction].

Section FurtherProperties.

Context {K : Constants} {C : Collaborators}.

#[local] Arguments Nat.ltb : simpl never.
#[local] Arguments Nat.leb : simpl never.
#[local] Arguments Z.ltb : simpl never.
#[local] Arguments Z.land : simpl never.
#[local] Arguments Z.lor : simpl never.
#[local] Arguments Z.add : simpl never.
#[local] Arguments Z.modulo : simpl never.
#[local] Arguments int16_of : simpl never.

(** X1: Query returns Ok exactly when every one of its checks passes: room on
    the tile, a known ride, a station index inside the array, a closed or
    simulating ride without indestructible track, no entrance (exit) to
    replace or a nested query that agrees, a valid and owned (or sandbox)
    location, clearance, dry ground, and a base height not above the
    maximum. *)
Theorem Query_succeeds_iff (a : RideEntranceExitPlaceAction) (s : State) :
  (exists r, fst (Query a s) = Returned r /\ Error r = Ok)
  <-> exists ride,
        Query_reaches_clearance a (world s) ride
        /\ let z := GetBaseZ (stations ride (_stationNum a)) in
           let cl := map_can_construct_with_clear_at (world s) (clearance_range a z)
                       (mkQuarterTile 15 0) (GetFlags a) in
           cl_ok cl = true
           /\ has_flag (cl_groundFlags cl) ELEMENT_IS_UNDERWATER = false
           /\ z <= MaxRideEntranceOrExitHeight.
Proof.
  unfold Query_reaches_clearance, clearance_range, location_in. split.
  - unfold_action. split_cases; intros (res & [= <-] & Hok);
      try discriminate; try impossible;
      (eexists; split; [|simpl]); path_facts;
      repeat match goal with H : _ \/ _ |- _ => destruct H end; path_facts;
      repeat split; auto; lia.
  - intros (ride & (Hcap & Hride & Hst & Hstatus & Hflag & Hnested & Hvalid & Howned)
            & Hcl & Hdry & Hz).
    simpl in Hcl, Hdry, Hz.
    unfold_action. simpl. rewrite Hcap. simpl. rewrite Hride.
    split_cases; first [eexists; split; reflexivity | impossible].
Qed.

(** X2: for a known ride and a station index inside the array, on a tile
    with room, a ride that is neither closed nor simulating makes Query
    return NotClosed with the must-be-closed message, before anything else
    about the ride, the station or the location is looked at; the state is
    left as it was. *)
Theorem Query_ride_not_closed
    (a : RideEntranceExitPlaceAction) (s : State) (ride : Ride) :
  MapCheckCapacityAndReorganise (world s) (_loc a) = true ->
  rides (world s) !! _rideIndex a = Some ride ->
  (_stationNum a < MAX_STATIONS)%nat ->
  status ride <> Closed -> status ride <> Simulating ->
  Query a s
  = (Returned (MakeResult3 NotClosed (errorTitleFor (_isExit a))
                 STR_MUST_BE_CLOSED_FIRST), s).
Proof.
  intros Hcap Hride Hst Hc Hs. destruct s as [w sl]. simpl in *.
  unfold_action. simpl. rewrite Hcap. simpl. rewrite Hride.
  split_cases; first [reflexivity | impossible].
Qed.

(** X3: a closed or simulating ride whose lifecycle flags carry the
    indestructible-track bit makes Query return Disallowed with the
    not-allowed-to-modify-station message; the station's present entrance is
    not asked for and no nested query runs. *)
Theorem Query_indestructible_track
    (a : RideEntranceExitPlaceAction) (s : State) (ride : Ride) :
  MapCheckCapacityAndReorganise (world s) (_loc a) = true ->
  rides (world s) !! _rideIndex a = Some ride ->
  (_stationNum a < MAX_STATIONS)%nat ->
  status ride = Closed \/ status ride = Simulating ->
  has_flag (lifecycle_flags ride) RIDE_LIFECYCLE_INDESTRUCTIBLE_TRACK = true ->
  Query a s
  = (Returned (MakeResult3 Disallowed (errorTitleFor (_isExit a))
                 STR_NOT_ALLOWED_TO_MODIFY_STATION), s).
Proof.
  intros Hcap Hride Hst Hstatus Hflag. destruct s as [w sl]. simpl in *.
  unfold_action. simpl. rewrite Hcap. simpl. rewrite Hride.
  split_cases; first [reflexivity | impossible].
Qed.

(** X4: once Query has arrived at line 96, a location outside the map gives
    NotOwned even in sandbox mode, and a location inside it gives NotOwned
    when the land at the station's base height is not owned and sandbox mode
    is off; no clearance check runs and the state is left as it was. *)
Theorem Query_not_owned
    (a : RideEntranceExitPlaceAction) (s : State) (ride : Ride) :
  Query_reaches_ownership a (world s) ride ->
  LocationValid (_loc a) = false
  \/ (gCheatsSandboxMode (world s) = false
      /\ map_is_location_owned (world s)
           (mkXYZ (_loc a) (GetBaseZ (stations ride (_stationNum a)))) = false) ->
  Query a s = (Returned (MakeResult2 NotOwned (errorTitleFor (_isExit a))), s).
Proof.
  unfold Query_reaches_ownership, location_in.
  intros (Hcap & Hride & Hst & Hstatus & Hflag & Hnested) Hland.
  destruct s as [w sl]. simpl in *.
  unfold_action. simpl. rewrite Hcap. simpl. rewrite Hride.
  split_cases; first [reflexivity | impossible].
Qed.

(** X5: the height test is the last one.  With clearance granted on dry
    ground, a station base height above MaxRideEntranceOrExitHeight makes
    Query return Disallowed with the too-high message. *)
Theorem Query_too_high
    (a : RideEntranceExitPlaceAction) (s : State) (ride : Ride) :
  Query_reaches_clearance a (world s) ride ->
  let z := GetBaseZ (stations ride (_stationNum a)) in
  let cl := map_can_construct_with_clear_at (world s) (clearance_range a z)
              (mkQuarterTile 15 0) (GetFlags a) in
  cl_ok cl = true ->
  has_flag (cl_groundFlags cl) ELEMENT_IS_UNDERWATER = false ->
  MaxRideEntranceOrExitHeight < z ->
  fst (Query a s)
  = Returned (MakeResult3 Disallowed (errorTitleFor (_isExit a)) STR_TOO_HIGH).
Proof.
  unfold Query_reaches_clearance, clearance_range, location_in.
  intros (Hcap & Hride & Hst & Hstatus & Hflag & Hnested & Hvalid & Howned).
  simpl. intros Hcl Hdry Hz.
  unfold_action. simpl. rewrite Hcap. simpl. rewrite Hride.
  split_cases; first [reflexivity | impossible].
Qed.

(** X6: a failure Result of Query is either the nested remove action's own
    Result, or one Query built: then it carries the action's error title and
    neither position, cost nor expenditure category. *)
Theorem Query_failures_are_titled
    (a : RideEntranceExitPlaceAction) (s : State) (r : Result) :
  fst (Query a s) = Returned r ->
  Error r <> Ok ->
  (isNull (location_in a (world s)) = false
   /\ r = QueryNested (world s) (remove_action_for a (location_in a (world s))))
  \/ (ErrorTitle r = errorTitleFor (_isExit a)
      /\ Position r = None /\ Cost r = None /\ Expenditure r = None).
Proof.
  unfold location_in. unfold_action.
  split_cases; intros [= <-] Hfail; simpl in *;
    first [ right; repeat split; reflexivity
          | left; path_facts; split; [assumption | reflexivity]
          | congruence
          | impossible ].
Qed.

(** X7: the direction is neither checked nor used to decide: changing it
    changes no Result of Query or Execute and nothing Query leaves behind. *)
Theorem direction_decides_nothing
    (a : RideEntranceExitPlaceAction) (s : State) (d : Z) :
  Query (with_direction d a) s = Query a s
  /\ fst (Execute (with_direction d a) s) = fst (Execute a s).
Proof.
  split.
  - reflexivity.
  - unfold_action. unfold remove_action_for, with_direction. simpl.
    split_cases; reflexivity.
Qed.

Ltac split_flags a :=
  destruct (has_flag (GetFlags a) GAME_COMMAND_FLAG_GHOST) eqn:Hghost;
  destruct (has_flag (GetFlags a) GAME_COMMAND_FLAG_ALLOW_DURING_PAUSED) eqn:Hpaused;
  destruct (_isExit a) eqn:Hexit; simpl in *.

(** X8: Execute returns Ok exactly when the ride is known, the nested
    removal (if an entrance or exit is recorded) succeeds, the station index
    lies inside the array, the apply-mode clearance check passes in the world
    reached by then, and the insertion yields an element.  With all but the
    last it stops at the assertion instead.  Ride status, lifecycle flags,
    ownership, ground flags and height play no part. *)
Theorem Execute_succeeds_iff (a : RideEntranceExitPlaceAction) (s : State) :
  ((exists r, fst (Execute a s) = Returned r /\ Error r = Ok)
   <-> exists ride,
         Execute_reaches_clearance a (world s) ride
         /\ let z := GetBaseZ (stations ride (_stationNum a)) in
            cl_ok (map_can_construct_with_clear_at (world_at_clearance a z (world s))
                     (clearance_range a z) (mkQuarterTile 15 0) (apply_flags a)) = true
            /\ TileElementInsert (world_at_insertion a z (world s))
                 (mkXYZ (_loc a) z) 15 = true)
  /\ (fst (Execute a s) = Faulted AssertionFailed
      <-> exists ride,
            Execute_reaches_clearance a (world s) ride
            /\ let z := GetBaseZ (stations ride (_stationNum a)) in
               cl_ok (map_can_construct_with_clear_at (world_at_clearance a z (world s))
                        (clearance_range a z) (mkQuarterTile 15 0) (apply_flags a)) = true
               /\ TileElementInsert (world_at_insertion a z (world s))
                    (mkXYZ (_loc a) z) 15 = false).
Proof.
  unfold Execute_reaches_clearance, world_at_insertion, world_at_clearance,
    after_litter_removal, after_removal, after_eviction, clearance_range,
    apply_flags, location_in.
  unfold_action. simpl.
  destruct (rides (world s) !! _rideIndex a) as [ride|] eqn:Hride; simpl.
  2:{ split; split.
      - intros (res & [= <-] & Hok). discriminate.
      - intros (ride & (Hr & _) & _). discriminate.
      - discriminate.
      - intros (ride & (Hr & _) & _). discriminate. }
  split_flags a; split_cases; (split; split).
  all: try (intros (res & [= <-] & Hok); first [discriminate | impossible | idtac]).
  all: try (intros (ride' & (Hr & Hst & Hnested) & Hcl & Hins);
            injection Hr as <-;
            first [eexists; split; reflexivity | reflexivity | impossible]).
  all: try (intros [=]; fail).
  all: try (intros _).
  all: try (exists ride; path_facts; repeat split; auto; fail).
  all: impossible.
Qed.

(** X9: a successful entrance placement resets the queue bookkeeping of the
    targeted station (no last guest, length zero) and touches nothing else of
    the rides: the station keeps its base height, the other stations, the
    status and lifecycle flags of the ride, and every other ride stay as they
    were. *)
Theorem Execute_entrance_resets_queue
    (a : RideEntranceExitPlaceAction) (s : State) (ride : Ride) (r : Result) :
  rides (world s) !! _rideIndex a = Some ride ->
  _isExit a = false ->
  fst (Execute a s) = Returned r ->
  Error r = Ok ->
  (exists ride',
     rides (world (snd (Execute a s))) !! _rideIndex a = Some ride'
     /\ status ride' = status ride
     /\ lifecycle_flags ride' = lifecycle_flags ride
     /\ stations ride' (_stationNum a)
        = mkStation (BaseZ (stations ride (_stationNum a))) SPRITE_INDEX_NULL 0
     /\ forall j, j <> _stationNum a -> stations ride' j = stations ride j)
  /\ forall id, id <> _rideIndex a ->
       rides (world (snd (Execute a s))) !! id = rides (world s) !! id.
Proof.
  intros Hride Hexit. unfold_action. simpl. rewrite Hride, Hexit.
  split_cases; intros [= <-] Hok; try discriminate; try impossible.
  all: split;
    [ rewrite !lookup_alter_eq, Hride; simpl; eexists; split; [reflexivity|];
      simpl; rewrite Nat.eqb_refl; repeat split;
      intros j Hj; apply Nat.eqb_neq in Hj; rewrite Hj; reflexivity
    | intros id Hid; rewrite !lookup_alter_ne by congruence; reflexivity ].
Qed.


(** X11: a successful Execute inserts exactly one element: at the location
    and the station's base height, covering all four quadrants, with the
    action's direction, kind, station and ride, a clearance height of base
    plus the entrance (exit) height, and the ghost marker of the flags.  An
    Execute that fails or stops inserts none. *)
Theorem Execute_inserts_one_or_none (a : RideEntranceExitPlaceAction) (s : State) :
  (forall ride r,
     rides (world s) !! _rideIndex a = Some ride ->
     fst (Execute a s) = Returned r -> Error r = Ok ->
     inserted_elements (world (snd (Execute a s)))
     = inserted_elements (world s)
       ++ [placed_element a (GetBaseZ (stations ride (_stationNum a)))])
  /\ (~ (exists r, fst (Execute a s) = Returned r /\ Error r = Ok) ->
      inserted_elements (world (snd (Execute a s))) = inserted_elements (world s)).
Proof.
  unfold placed_element, inserted_elements. unfold_action.
  split_cases; split;
    first [ intros ride' res [= <-] [= <-] Hok | intros ride' res [=] | intros Hfail ];
    try discriminate; try impossible;
    rewrite <- ?app_assoc; simpl; rewrite ?omap_app; simpl;
    rewrite ?app_nil_r;
    first [ reflexivity
          | exfalso; apply Hfail; eexists; split; reflexivity ].
Qed.

(** X12: the removal is not undone.  When an entrance (exit) is recorded,
    the nested remove action succeeds and the clearance check then fails,
    Execute returns NoClearance with the check's message, and the world it
    leaves holds the executed removal: the history goes up to the clearance
    call, contains the nested call, and shows no insertion and no setter
    call. *)
Theorem Execute_removal_not_rolled_back
    (a : RideEntranceExitPlaceAction) (s : State) (ride : Ride) :
  rides (world s) !! _rideIndex a = Some ride ->
  (_stationNum a < MAX_STATIONS)%nat ->
  let w1 := after_eviction a (world s) in
  let sub := remove_action_for a (location_in a w1) in
  let z := GetBaseZ (stations ride (_stationNum a)) in
  let cl := map_can_construct_with_clear_at (world_at_clearance a z (world s))
              (clearance_range a z) (mkQuarterTile 15 0) (apply_flags a) in
  isNull (location_in a w1) = false ->
  Error (ExecuteNested w1 sub) = Ok ->
  cl_ok cl = false ->
  fst (Execute a s)
  = Returned (MakeResult4 NoClearance (errorTitleFor (_isExit a))
                (cl_errorText cl) (cl_formatArgs cl))
  /\ world (snd (Execute a s)) = world_at_insertion a z (world s)
  /\ In (ExecuteNested_call sub) (history (world (snd (Execute a s))))
  /\ inserted_elements (world (snd (Execute a s))) = inserted_elements (world s)
  /\ Forall (fun e => is_station_setter e = false)
            (drop (length (history (world s))) (history (world (snd (Execute a s))))).
Proof.
  intros Hride Hst. apply Nat.ltb_lt in Hst. simpl.
  unfold inserted_elements, world_at_insertion, world_at_clearance,
    after_litter_removal, after_removal, after_eviction, clearance_range,
    apply_flags, location_in.
  unfold_action. simpl. rewrite Hride.
  split_flags a; intros Hnull Hnested Hcl;
    rewrite Hnull in Hcl |- *; simpl in Hcl |- *;
    rewrite Hnested; simpl; rewrite Hst; simpl;
    rewrite Hcl; simpl;
    (split; [reflexivity|]); (split; [reflexivity|]);
    rewrite <- ?app_assoc; simpl;
    (split; [apply in_or_app; right; simpl; tauto|]);
    (split; [rewrite omap_app; simpl; apply app_nil_r|]);
    rewrite drop_app_length; repeat constructor.
Qed.

(** X13: without the ghost flag the guests go first.  For a known ride the
    first two calls Execute makes are ride_clear_for_construction and
    ride_remove_peeps, whatever happens afterwards (failure, assertion, or an
    index outside the station array). *)
Theorem Execute_evicts_first
    (a : RideEntranceExitPlaceAction) (s : State) (ride : Ride) :
  rides (world s) !! _rideIndex a = Some ride ->
  has_flag (GetFlags a) GAME_COMMAND_FLAG_GHOST = false ->
  exists rest,
    history (world (snd (Execute a s)))
    = history (world s)
      ++ ride_clear_for_construction (_rideIndex a)
         :: ride_remove_peeps (_rideIndex a) :: rest.
Proof.
  intros Hride Hghost. unfold_action. simpl. rewrite Hride, Hghost. simpl.
  split_cases; rewrite <- ?app_assoc; simpl; eexists; reflexivity.
Qed.

(** X14: the allow-during-paused flag holds back the litter and wall removal
    and nothing else: with it Execute removes neither, and a non-ghost
    placement that succeeds has still evicted the guests and run the hedge
    removal. *)
Theorem Execute_allow_during_paused (a : RideEntranceExitPlaceAction) (s : State) :
  has_flag (GetFlags a) GAME_COMMAND_FLAG_ALLOW_DURING_PAUSED = true ->
  exists added : list Effect,
    history (world (snd (Execute a s))) = history (world s) ++ added
    /\ Forall (fun e => is_litter_or_wall_removal e = false) added
    /\ (has_flag (GetFlags a) GAME_COMMAND_FLAG_GHOST = false ->
        forall r, fst (Execute a s) = Returned r -> Error r = Ok ->
        Exists (fun e => is_eviction e = true) added
        /\ Exists (fun e => is_hedge_removal e = true) added).
Proof.
  intros Hpaused. unfold_action. simpl. rewrite Hpaused. simpl.
  split_cases; try impossible;
    (first [ exists []; split; [symmetry; apply app_nil_r|]
           | rewrite <- ?app_assoc; simpl; eexists; split; [reflexivity|] ]);
    (split; [repeat constructor|]);
    intros Hghost res [= <-] Hok; try discriminate; try impossible;
    rewrite ?Exists_cons; simpl; intuition.
Qed.

(** X15: a successful Execute records the station's new location through
    exactly one setter call, the one for the kind placed, with the location,
    the station's base height and the action's direction in tile
    coordinates; its last three calls connect the footpath edges, update the
    queue chains and invalidate the tile. *)
Theorem Execute_success_setter_and_tail
    (a : RideEntranceExitPlaceAction) (s : State) (ride : Ride) (r : Result) :
  rides (world s) !! _rideIndex a = Some ride ->
  fst (Execute a s) = Returned r ->
  Error r = Ok ->
  let z := GetBaseZ (stations ride (_stationNum a)) in
  exists added : list Effect,
    history (world (snd (Execute a s))) = history (world s) ++ added
    /\ List.filter is_station_setter added = [station_setter_call a z]
    /\ firstn 3 (rev added)
       = [map_invalidate_tile_full (_loc a);
          footpath_update_queue_chains;
          footpath_connect_edges (_loc a) (placed_element a z) (GetFlags a)].
Proof.
  intros Hride. unfold station_setter_call, placed_element.
  unfold_action. simpl. rewrite Hride.
  split_cases; intros [= <-] Hok; try discriminate; try impossible;
    rewrite <- ?app_assoc; simpl; eexists; (split; [reflexivity|]);
    split; reflexivity.
Qed.

(** X16: TrackPlaceQuery changes nothing in the world, always returns a
    Result (it reads no station), and its Result does not depend on what the
    output slots held before. *)
Theorem TrackPlaceQuery_is_pure (loc : CoordsXYZ) (isExit : bool) (s : State) :
  world (snd (TrackPlaceQuery loc isExit s)) = world s
  /\ (exists r, fst (TrackPlaceQuery loc isExit s) = Returned r)
  /\ forall sl, fst (TrackPlaceQuery loc isExit (mkState (world s) sl))
               = fst (TrackPlaceQuery loc isExit s).
Proof.
  destruct s as [w sl]. unfold_action. simpl.
  split; [|split].
  - split_cases; reflexivity.
  - split_cases; eexists; reflexivity.
  - intros sl'. split_cases; reflexivity.
Qed.

(** X17: TrackPlaceQuery returns Ok exactly when the tile has room, the
    location is owned or sandbox mode is on, the clearance check passes for
    the volume built from the height narrowed to 16 bits, the ground is dry
    and the narrowed height is not above the maximum.  No ride, station or
    map-bounds test is involved. *)
Theorem TrackPlaceQuery_succeeds_iff (loc : CoordsXYZ) (isExit : bool) (s : State) :
  (exists r, fst (TrackPlaceQuery loc isExit s) = Returned r /\ Error r = Ok)
  <-> TrackPlaceQuery_reaches_clearance loc (world s)
      /\ let cl := map_can_construct_with_clear_at (world s) (track_range loc isExit)
                     (mkQuarterTile 15 0) 0 in
         cl_ok cl = true
         /\ has_flag (cl_groundFlags cl) ELEMENT_IS_UNDERWATER = false
         /\ int16_of (xyz_z loc) <= MaxRideEntranceOrExitHeight.
Proof.
  unfold TrackPlaceQuery_reaches_clearance, track_range. simpl. split.
  - unfold_action. split_cases; intros (res & [= <-] & Hok);
      try discriminate; path_facts;
      repeat match goal with H : _ \/ _ |- _ => destruct H end; path_facts;
      repeat split; auto; lia.
  - intros ((Hcap & Howned) & Hcl & Hdry & Hz).
    unfold_action. simpl. rewrite Hcap. simpl.
    split_cases; first [eexists; split; reflexivity | impossible].
Qed.

(** X18: every failure of TrackPlaceQuery carries the error title of the
    kind asked for and no position; its status is NoFreeElements, NotOwned,
    NoClearance or Disallowed, never InvalidParameters or NotClosed, and in
    sandbox mode never NotOwned. *)
Theorem TrackPlaceQuery_failures
    (loc : CoordsXYZ) (isExit : bool) (s : State) (r : Result) :
  fst (TrackPlaceQuery loc isExit s) = Returned r ->
  Error r <> Ok ->
  ErrorTitle r = errorTitleFor isExit
  /\ Position r = None
  /\ (Error r = NoFreeElements \/ Error r = NotOwned
      \/ Error r = NoClearance \/ Error r = Disallowed)
  /\ (gCheatsSandboxMode (world s) = true -> Error r <> NotOwned).
Proof.
  unfold_action. split_cases; intros [= <-] Hfail; simpl in *;
    try congruence; repeat split; auto; try discriminate;
    intros Hcheat; impossible.
Qed.

(** X19: only the low 16 bits of the requested height reach the clearance
    volume and the height test.  Two requests at the same place whose
    heights agree after narrowing, and for which the ownership answer is the
    same (or sandbox mode is on), run identically. *)
Theorem TrackPlaceQuery_height_narrowed
    (xy : CoordsXY) (z z' : Z) (isExit : bool) (s : State) :
  int16_of z = int16_of z' ->
  gCheatsSandboxMode (world s) = true
  \/ map_is_location_owned (world s) (mkXYZ xy z)
     = map_is_location_owned (world s) (mkXYZ xy z') ->
  TrackPlaceQuery (mkXYZ xy z) isExit s = TrackPlaceQuery (mkXYZ xy z') isExit s.
Proof.
  intros Hz Howned. unfold_action. simpl. rewrite Hz.
  destruct (MapCheckCapacityAndReorganise (world s) xy); simpl; [|reflexivity].
  destruct Howned as [Hcheat | Howned]; [rewrite Hcheat | rewrite Howned];
    simpl; split_cases; reflexivity.
Qed.

(** X20: the static path agrees with Query.  For an action without flags
    whose Query has arrived at line 96 on a location inside the map, with a
    base height and a clearance height that fit 16 bits, TrackPlaceQuery at
    that location and base height returns the same status, title, message
    and arguments; a failure Result is the same Result. *)
Theorem TrackPlaceQuery_agrees_with_Query
    (a : RideEntranceExitPlaceAction) (s : State) (ride : Ride) :
  Query_reaches_ownership a (world s) ride ->
  LocationValid (_loc a) = true ->
  GetFlags a = 0 ->
  let z := GetBaseZ (stations ride (_stationNum a)) in
  int16_of z = z ->
  int16_of (z + (if _isExit a then RideExitHeight else RideEntranceHeight))
  = z + (if _isExit a then RideExitHeight else RideEntranceHeight) ->
  exists rq rt,
    fst (Query a s) = Returned rq
    /\ fst (TrackPlaceQuery (mkXYZ (_loc a) z) (_isExit a) s) = Returned rt
    /\ Error rq = Error rt /\ ErrorTitle rq = ErrorTitle rt
    /\ ErrorMessage rq = ErrorMessage rt
    /\ ErrorMessageArgs rq = ErrorMessageArgs rt
    /\ (Error rq <> Ok -> rq = rt).
Proof.
  unfold Query_reaches_ownership, location_in.
  intros (Hcap & Hride & Hst & Hstatus & Hflag & Hnested) Hvalid Hflags.
  simpl. intros Hz Hclear.
  unfold_action. simpl. rewrite Hcap. simpl. rewrite Hride, Hvalid, Hflags, Hz.
  destruct (_isExit a) eqn:Hexit; simpl in *; rewrite Hclear;
    split_cases; try impossible;
    (eexists; eexists; split; [reflexivity|]; split; [reflexivity|]);
    simpl; repeat split; auto; intros Hne; congruence.
Qed.

End FurtherProperties.

(** ** Serialisation *)

Section Serialisation.

Context {W : Wire}.

(** X21: what Serialise writes, it reads back.  Saving never fails, leaves
    the action as it is and only appends to the stream; provided each codec
    reads back the value of the action's field it wrote, loading from the
    written bytes turns any action into the saved one, field by field and
    flags included, and leaves exactly the bytes that followed. *)
Theorem Serialise_round_trip
    (a a0 : RideEntranceExitPlaceAction) (before rest : list Z) :
  (forall tl, decode_GameAction (encode_GameAction (GetFlags a) ++ tl)
              = Some (GetFlags a, tl)) ->
  (forall tl, decode_CoordsXY (encode_CoordsXY (_loc a) ++ tl) = Some (_loc a, tl)) ->
  (forall tl, decode_Direction (encode_Direction (_direction a) ++ tl)
              = Some (_direction a, tl)) ->
  (forall tl, decode_ride_id_t (encode_ride_id_t (_rideIndex a) ++ tl)
              = Some (_rideIndex a, tl)) ->
  (forall tl, decode_StationIndex (encode_StationIndex (_stationNum a) ++ tl)
              = Some (_stationNum a, tl)) ->
  (forall tl, decode_bool (encode_bool (_isExit a) ++ tl) = Some (_isExit a, tl)) ->
  exists written,
    Serialise a (mkStream true before) = Some (a, mkStream true (before ++ written))
    /\ Serialise a0 (mkStream false (written ++ rest)) = Some (a, mkStream false rest).
Proof.
  intros Hbase Hloc Hdir Hride Hst Hexit.
  exists (encode_GameAction (GetFlags a) ++ encode_CoordsXY (_loc a)
          ++ encode_Direction (_direction a) ++ encode_ride_id_t (_rideIndex a)
          ++ encode_StationIndex (_stationNum a) ++ encode_bool (_isExit a)).
  split.
  - unfold Serialise, DS_TAG. simpl. rewrite <- !app_assoc. destruct a; reflexivity.
  - unfold Serialise, DS_TAG. simpl. rewrite <- !app_assoc.
    rewrite Hbase. simpl. rewrite Hloc. simpl. rewrite Hdir. simpl.
    rewrite Hride. simpl. rewrite Hst. simpl. rewrite Hexit. simpl.
    destruct a; reflexivity.
Qed.

(** X22: the visitor sees the parameters in the order the stream carries
    them: the bytes Serialise writes are those of the base class followed by
    the visited parameters, each under the codec of its type, in the order
    AcceptParameters visits them. *)
Theorem Serialise_follows_AcceptParameters
    (a : RideEntranceExitPlaceAction) (before : list Z) :
  snd <$> Serialise a (mkStream true before)
  = Some (mkStream true
            (before ++ encode_GameAction (GetFlags a)
                    ++ concat (map wire_of (AcceptParameters a)))).
Proof.
  unfold Serialise, DS_TAG, AcceptParameters. simpl.
  rewrite <- !app_assoc, app_nil_r. reflexivity.
Qed.

End Serialisation.

(** ** The park: worked examples of the further properties *)

Module ParkFurther.

Import Park ParkMore ParkWire.

Lemma Query_succeeds_iff_witness :
  Query_reaches_clearance plain_entrance (world (start park)) closed_ride
  /\ exists r, fst (Query plain_entrance (start park)) = Returned r /\ Error r = Ok.
Proof.
  assert (Hreach : Query_reaches_clearance plain_entrance (world (start park)) closed_ride).
  { unfold Query_reaches_clearance.
    split; [reflexivity|]. split; [reflexivity|]. split; [vm_compute; lia|].
    split; [left; reflexivity|]. split; [reflexivity|].
    split; [left; reflexivity|]. split; [reflexivity|]. right; reflexivity. }
  split; [exact Hreach|].
  apply (proj2 (Query_succeeds_iff plain_entrance (start park))).
  exists closed_ride. split; [exact Hreach|].
  simpl. split; [reflexivity|]. split; [reflexivity|]. vm_compute. discriminate.
Defined.

Lemma Query_ride_not_closed_witness :
  rides (world (start park)) !! _rideIndex (entrance 100 100 1%nat 0%nat 0) = Some open_ride
  /\ Query (entrance 100 100 1%nat 0%nat 0) (start park)
     = (Returned (MakeResult3 NotClosed title_entrance STR_MUST_BE_CLOSED_FIRST),
        start park).
Proof.
  assert (Hst : (_stationNum (entrance 100 100 1%nat 0%nat 0) < MAX_STATIONS)%nat)
    by (vm_compute; lia).
  assert (Hc : status open_ride <> Closed) by discriminate.
  assert (Hs : status open_ride <> Simulating) by discriminate.
  split; [reflexivity|].
  exact (Query_ride_not_closed (entrance 100 100 1%nat 0%nat 0) (start park) open_ride
           eq_refl eq_refl Hst Hc Hs).
Defined.

Lemma Query_indestructible_track_witness :
  has_flag (lifecycle_flags fixed_ride) RIDE_LIFECYCLE_INDESTRUCTIBLE_TRACK = true
  /\ Query (entrance 100 100 2%nat 0%nat 0) (start big_park)
     = (Returned (MakeResult3 Disallowed title_entrance STR_NOT_ALLOWED_TO_MODIFY_STATION),
        start big_park).
Proof.
  assert (Hst : (_stationNum (entrance 100 100 2%nat 0%nat 0) < MAX_STATIONS)%nat)
    by (vm_compute; lia).
  assert (Hflag : has_flag (lifecycle_flags fixed_ride)
                    RIDE_LIFECYCLE_INDESTRUCTIBLE_TRACK = true) by reflexivity.
  assert (Hcap : MapCheckCapacityAndReorganise (world (start big_park))
                   (_loc (entrance 100 100 2%nat 0%nat 0)) = true) by reflexivity.
  assert (Hride : rides (world (start big_park)) !! _rideIndex (entrance 100 100 2%nat 0%nat 0)
                  = Some fixed_ride) by reflexivity.
  split; [exact Hflag|].
  exact (Query_indestructible_track (entrance 100 100 2%nat 0%nat 0) (start big_park)
           fixed_ride Hcap Hride Hst (or_introl eq_refl) Hflag).
Defined.

(** Land at y = 5000 is not owned; x = -5 is outside the map, which the
    sandbox does not excuse. *)
Lemma Query_not_owned_witness :
  Query_reaches_ownership (entrance 100 5000 0%nat 0%nat 0) (world (start park)) closed_ride
  /\ Query (entrance 100 5000 0%nat 0%nat 0) (start park)
     = (Returned (MakeResult2 NotOwned title_entrance), start park)
  /\ gCheatsSandboxMode sandbox_park = true
  /\ Query (entrance (-5) 100 0%nat 0%nat 0) (start sandbox_park)
     = (Returned (MakeResult2 NotOwned title_entrance), start sandbox_park).
Proof.
  assert (Hreach : Query_reaches_ownership (entrance 100 5000 0%nat 0%nat 0)
                     (world (start park)) closed_ride).
  { unfold Query_reaches_ownership.
    split; [reflexivity|]. split; [reflexivity|]. split; [vm_compute; lia|].
    split; [left; reflexivity|]. split; [reflexivity|]. left; reflexivity. }
  assert (Hreach' : Query_reaches_ownership (entrance (-5) 100 0%nat 0%nat 0)
                      (world (start sandbox_park)) closed_ride).
  { unfold Query_reaches_ownership.
    split; [reflexivity|]. split; [reflexivity|]. split; [vm_compute; lia|].
    split; [left; reflexivity|]. split; [reflexivity|]. left; reflexivity. }
  assert (Hinvalid : LocationValid (_loc (entrance (-5) 100 0%nat 0%nat 0)) = false)
    by reflexivity.
  split; [exact Hreach|]. split.
  - apply (Query_not_owned _ _ closed_ride Hreach). right. split; reflexivity.
  - split; [reflexivity|].
    apply (Query_not_owned _ _ closed_ride Hreach'). left. exact Hinvalid.
Defined.

Lemma Query_too_high_witness :
  Query_reaches_clearance (entrance 100 100 3%nat 0%nat 0) (world (start big_park)) tall_ride
  /\ MaxRideEntranceOrExitHeight < GetBaseZ (stations tall_ride 0%nat)
  /\ fst (Query (entrance 100 100 3%nat 0%nat 0) (start big_park))
     = Returned (MakeResult3 Disallowed title_entrance STR_TOO_HIGH).
Proof.
  assert (Hreach : Query_reaches_clearance (entrance 100 100 3%nat 0%nat 0)
                     (world (start big_park)) tall_ride).
  { unfold Query_reaches_clearance.
    split; [reflexivity|]. split; [reflexivity|]. split; [vm_compute; lia|].
    split; [left; reflexivity|]. split; [reflexivity|].
    split; [left; reflexivity|]. split; [reflexivity|]. right; reflexivity. }
  assert (Hz : MaxRideEntranceOrExitHeight < GetBaseZ (stations tall_ride 0%nat))
    by (vm_compute; reflexivity).
  split; [exact Hreach|]. split; [exact Hz|].
  apply (Query_too_high _ _ tall_ride Hreach); [reflexivity | reflexivity | exact Hz].
Defined.

Lemma Query_failures_are_titled_witness :
  fst (Query wet_entrance (start park))
  = Returned (MakeResult3 Disallowed title_entrance STR_RIDE_CANT_BUILD_THIS_UNDERWATER)
  /\ ErrorTitle (MakeResult3 Disallowed title_entrance STR_RIDE_CANT_BUILD_THIS_UNDERWATER)
     = errorTitleFor (_isExit wet_entrance).
Proof.
  assert (Hrun : fst (Query wet_entrance (start park))
                 = Returned (MakeResult3 Disallowed title_entrance
                               STR_RIDE_CANT_BUILD_THIS_UNDERWATER)) by reflexivity.
  assert (Hfail : Error (MakeResult3 Disallowed title_entrance
                           STR_RIDE_CANT_BUILD_THIS_UNDERWATER) <> Ok) by discriminate.
  split; [exact Hrun|].
  destruct (Query_failures_are_titled wet_entrance (start park) _ Hrun Hfail)
    as [[Hnull _] | [Htitle _]].
  - discriminate Hnull.
  - exact Htitle.
Defined.

Lemma Execute_succeeds_iff_witness :
  Execute_reaches_clearance plain_entrance (world (start park)) closed_ride
  /\ exists r, fst (Execute plain_entrance (start park)) = Returned r /\ Error r = Ok.
Proof.
  assert (Hreach : Execute_reaches_clearance plain_entrance (world (start park)) closed_ride).
  { unfold Execute_reaches_clearance.
    split; [reflexivity|]. split; [vm_compute; lia|]. left; reflexivity. }
  split; [exact Hreach|].
  apply (proj2 (proj1 (Execute_succeeds_iff plain_entrance (start park)))).
  exists closed_ride. split; [exact Hreach|]. split; reflexivity.
Defined.

Lemma Execute_entrance_resets_queue_witness :
  QueueLength (stations closed_ride 0%nat) = 3
  /\ fst (Execute plain_entrance (start park)) = Returned (placed_at (mkXY 112 112) 64)
  /\ exists ride',
       rides (world (snd (Execute plain_entrance (start park)))) !! 0%nat = Some ride'
       /\ stations ride' 0%nat = mkStation 64 65535 0.
Proof.
  assert (Hrun : fst (Execute plain_entrance (start park))
                 = Returned (placed_at (mkXY 112 112) 64)) by reflexivity.
  assert (Hride : rides (world (start park)) !! _rideIndex plain_entrance
                  = Some closed_ride) by reflexivity.
  split; [reflexivity|]. split; [exact Hrun|].
  destruct (Execute_entrance_resets_queue plain_entrance (start park) closed_ride _
              Hride eq_refl Hrun eq_refl) as ((ride' & Hlook & _ & _ & Hstation & _) & _).
  exists ride'. split; [exact Hlook | exact Hstation].
Defined.


Lemma Execute_inserts_one_or_none_witness :
  fst (Execute plain_exit (start park)) = Returned (placed_at (mkXY 112 112) 64)
  /\ inserted_elements (world (snd (Execute plain_exit (start park))))
     = [mkEntranceElement (mkXYZ (mkXY 100 100) 64) 15 1 104 true 0%nat 0%nat false]
  /\ fst (Execute blocked_entrance (start park))
     = Returned (MakeResult4 NoClearance title_entrance (STR_CATALOGUE 7) [1; 2])
  /\ inserted_elements (world (snd (Execute blocked_entrance (start park)))) = [].
Proof.
  assert (Hrun : fst (Execute plain_exit (start park))
                 = Returned (placed_at (mkXY 112 112) 64)) by reflexivity.
  assert (Hride : rides (world (start park)) !! _rideIndex plain_exit = Some closed_ride)
    by reflexivity.
  assert (Hblocked : fst (Execute blocked_entrance (start park))
                     = Returned (MakeResult4 NoClearance title_entrance
                                   (STR_CATALOGUE 7) [1; 2])) by reflexivity.
  split; [exact Hrun|]. split.
  - exact (proj1 (Execute_inserts_one_or_none plain_exit (start park))
             closed_ride _ Hride Hrun eq_refl).
  - split; [exact Hblocked|].
    apply (proj2 (Execute_inserts_one_or_none blocked_entrance (start park))).
    intros (r & Hr & Hok). rewrite Hblocked in Hr. injection Hr as <-. discriminate Hok.
Defined.

(** Moving the entrance of station 0 onto the blocked row: the old entrance
    is removed and nothing is put in its place. *)
Lemma Execute_removal_not_rolled_back_witness :
  isNull (location_in blocked_entrance
            (after_eviction blocked_entrance (world (start park_with_entrances)))) = false
  /\ fst (Execute blocked_entrance (start park_with_entrances))
     = Returned (MakeResult4 NoClearance title_entrance (STR_CATALOGUE 7) [1; 2])
  /\ In (ExecuteNested_call (mkRemove (mkXY 96 128) 0%nat 0%nat false 0))
        (history (world (snd (Execute blocked_entrance (start park_with_entrances)))))
  /\ isNull (ride_get_entrance_location
               (world (snd (Execute blocked_entrance (start park_with_entrances))))
               0%nat 0%nat) = true.
Proof.
  assert (Hride : rides (world (start park_with_entrances)) !! _rideIndex blocked_entrance
                  = Some closed_ride) by reflexivity.
  assert (Hst : (_stationNum blocked_entrance < MAX_STATIONS)%nat) by (vm_compute; lia).
  assert (Hnull : isNull (location_in blocked_entrance
                            (after_eviction blocked_entrance
                               (world (start park_with_entrances)))) = false)
    by reflexivity.
  destruct (Execute_removal_not_rolled_back blocked_entrance (start park_with_entrances)
              closed_ride Hride Hst Hnull eq_refl eq_refl)
    as (Hres & _ & Hin & _).
  split; [exact Hnull|]. split; [exact Hres|]. split; [exact Hin|]. reflexivity.
Defined.

(** Station index 4 lies outside the array; the guests are evicted all the
    same before Execute stops. *)
Lemma Execute_evicts_first_witness :
  has_flag (GetFlags (entrance 100 100 0%nat 4%nat 0)) GAME_COMMAND_FLAG_GHOST = false
  /\ fst (Execute (entrance 100 100 0%nat 4%nat 0) (start park)) = Faulted OutOfBounds
  /\ exists rest,
       history (world (snd (Execute (entrance 100 100 0%nat 4%nat 0) (start park))))
       = history (world (start park))
         ++ ride_clear_for_construction 0%nat :: ride_remove_peeps 0%nat :: rest.
Proof.
  assert (Hghost : has_flag (GetFlags (entrance 100 100 0%nat 4%nat 0))
                     GAME_COMMAND_FLAG_GHOST = false) by reflexivity.
  assert (Hride : rides (world (start park)) !! _rideIndex (entrance 100 100 0%nat 4%nat 0)
                  = Some closed_ride) by reflexivity.
  split; [exact Hghost|]. split; [reflexivity|].
  exact (Execute_evicts_first (entrance 100 100 0%nat 4%nat 0) (start park) closed_ride
           Hride Hghost).
Defined.

Lemma Execute_allow_during_paused_witness :
  has_flag (GetFlags (entrance 100 100 0%nat 0%nat PAUSED))
    GAME_COMMAND_FLAG_ALLOW_DURING_PAUSED = true
  /\ exists added : list Effect,
       history (world (snd (Execute (entrance 100 100 0%nat 0%nat PAUSED) (start park))))
       = history (world (start park)) ++ added
       /\ Forall (fun e => is_litter_or_wall_removal e = false) added
       /\ Exists (fun e => is_hedge_removal e = true) added.
Proof.
  assert (Hpaused : has_flag (GetFlags (entrance 100 100 0%nat 0%nat PAUSED))
                      GAME_COMMAND_FLAG_ALLOW_DURING_PAUSED = true) by reflexivity.
  assert (Hghost : has_flag (GetFlags (entrance 100 100 0%nat 0%nat PAUSED))
                     GAME_COMMAND_FLAG_GHOST = false) by reflexivity.
  assert (Hrun : fst (Execute (entrance 100 100 0%nat 0%nat PAUSED) (start park))
                 = Returned (placed_at (mkXY 112 112) 64)) by reflexivity.
  split; [exact Hpaused|].
  destruct (Execute_allow_during_paused (entrance 100 100 0%nat 0%nat PAUSED) (start park)
              Hpaused) as (added & Hhist & Hnone & Hrest).
  exists added. split; [exact Hhist|]. split; [exact Hnone|].
  exact (proj2 (Hrest Hghost _ Hrun eq_refl)).
Defined.

Lemma Execute_success_setter_and_tail_witness :
  fst (Execute plain_exit (start park)) = Returned (placed_at (mkXY 112 112) 64)
  /\ exists added : list Effect,
       history (world (snd (Execute plain_exit (start park))))
       = history (world (start park)) ++ added
       /\ List.filter is_station_setter added
          = [ride_set_exit_location 0%nat 0%nat (mkTileXYZD 3 3 8 1)].
Proof.
  assert (Hrun : fst (Execute plain_exit (start park))
                 = Returned (placed_at (mkXY 112 112) 64)) by reflexivity.
  assert (Hride : rides (world (start park)) !! _rideIndex plain_exit = Some closed_ride)
    by reflexivity.
  split; [exact Hrun|].
  destruct (Execute_success_setter_and_tail plain_exit (start park) closed_ride _
              Hride Hrun eq_refl) as (added & Hhist & Hsetter & _).
  exists added. split; [exact Hhist | exact Hsetter].
Defined.

Lemma TrackPlaceQuery_succeeds_iff_witness :
  TrackPlaceQuery_reaches_clearance (mkXYZ (mkXY 100 100) 200) (world (start park))
  /\ exists r, fst (TrackPlaceQuery (mkXYZ (mkXY 100 100) 200) true (start park)) = Returned r
               /\ Error r = Ok.
Proof.
  assert (Hreach : TrackPlaceQuery_reaches_clearance (mkXYZ (mkXY 100 100) 200)
                     (world (start park))).
  { split; [reflexivity | right; reflexivity]. }
  split; [exact Hreach|].
  apply (proj2 (TrackPlaceQuery_succeeds_iff (mkXYZ (mkXY 100 100) 200) true (start park))).
  split; [exact Hreach|].
  simpl. split; [reflexivity|]. split; [reflexivity|]. vm_compute. discriminate.
Defined.

Lemma TrackPlaceQuery_failures_witness :
  fst (TrackPlaceQuery (mkXYZ (mkXY 330 100) 200) false (start park))
  = Returned (MakeResult2 NoFreeElements title_entrance)
  /\ ErrorTitle (MakeResult2 NoFreeElements title_entrance) = errorTitleFor false
  /\ Position (MakeResult2 NoFreeElements title_entrance) = None.
Proof.
  assert (Hrun : fst (TrackPlaceQuery (mkXYZ (mkXY 330 100) 200) false (start park))
                 = Returned (MakeResult2 NoFreeElements title_entrance)) by reflexivity.
  assert (Hfail : Error (MakeResult2 NoFreeElements title_entrance) <> Ok) by discriminate.
  split; [exact Hrun|].
  destruct (TrackPlaceQuery_failures (mkXYZ (mkXY 330 100) 200) false (start park) _
              Hrun Hfail) as (Htitle & Hpos & _).
  split; [exact Htitle | exact Hpos].
Defined.

(** A requested height of 65636 is taken for 100. *)
Lemma TrackPlaceQuery_height_narrowed_witness :
  int16_of 65636 = int16_of 100
  /\ TrackPlaceQuery (mkXYZ (mkXY 100 100) 65636) false (start park)
     = TrackPlaceQuery (mkXYZ (mkXY 100 100) 100) false (start park)
  /\ status_of (fst (TrackPlaceQuery (mkXYZ (mkXY 100 100) 65636) false (start park)))
     = Some Ok.
Proof.
  assert (Hz : int16_of 65636 = int16_of 100) by reflexivity.
  split; [exact Hz|]. split; [|reflexivity].
  apply (TrackPlaceQuery_height_narrowed (mkXY 100 100) 65636 100 false (start park) Hz).
  right. reflexivity.
Defined.

Lemma TrackPlaceQuery_agrees_with_Query_witness :
  Query_reaches_ownership wet_entrance (world (start park)) closed_ride
  /\ exists rq rt,
       fst (Query wet_entrance (start park)) = Returned rq
       /\ fst (TrackPlaceQuery (mkXYZ (mkXY 100 970) 64) false (start park)) = Returned rt
       /\ Error rq = Disallowed /\ rq = rt.
Proof.
  assert (Hreach : Query_reaches_ownership wet_entrance (world (start park)) closed_ride).
  { unfold Query_reaches_ownership.
    split; [reflexivity|]. split; [reflexivity|]. split; [vm_compute; lia|].
    split; [left; reflexivity|]. split; [reflexivity|]. left; reflexivity. }
  assert (Hvalid : LocationValid (_loc wet_entrance) = true) by reflexivity.
  assert (Hflags : GetFlags wet_entrance = 0) by reflexivity.
  assert (Hz : int16_of (GetBaseZ (stations closed_ride (_stationNum wet_entrance)))
               = GetBaseZ (stations closed_ride (_stationNum wet_entrance)))
    by reflexivity.
  assert (Hclear : int16_of (GetBaseZ (stations closed_ride (_stationNum wet_entrance))
                             + (if _isExit wet_entrance
                                then RideExitHeight else RideEntranceHeight))
                   = GetBaseZ (stations closed_ride (_stationNum wet_entrance))
                     + (if _isExit wet_entrance then RideExitHeight else RideEntranceHeight))
    by reflexivity.
  split; [exact Hreach|].
  destruct (TrackPlaceQuery_agrees_with_Query wet_entrance (start park) closed_ride
              Hreach Hvalid Hflags Hz Hclear)
    as (rq & rt & Hq & Ht & _ & _ & _ & _ & Hsame).
  exists rq, rt. split; [exact Hq|]. split; [exact Ht|].
  assert (Hstatus : Error rq = Disallowed).
  { assert (Hrun : fst (Query wet_entrance (start park))
                   = Returned (MakeResult3 Disallowed title_entrance
                                 STR_RIDE_CANT_BUILD_THIS_UNDERWATER)) by reflexivity.
    rewrite Hrun in Hq. injection Hq as <-. reflexivity. }
  split; [exact Hstatus|]. apply Hsame. rewrite Hstatus. discriminate.
Defined.

Lemma Serialise_round_trip_witness :
  Serialise sample_action (mkStream true [])
  = Some (sample_action,
          mkStream true [0; 0; 0; 72; 0; 0; 0; 100; 255; 255; 255; 236; 3; 1; 2; 2; 1])
  /\ Serialise plain_entrance
       (mkStream false [0; 0; 0; 72; 0; 0; 0; 100; 255; 255; 255; 236; 3; 1; 2; 2; 1; 9])
     = Some (sample_action, mkStream false [9]).
Proof.
  destruct (Serialise_round_trip sample_action plain_entrance [] [9])
    as (written & Hsave & Hload); try (intros tl; reflexivity).
  assert (Hwritten : Serialise sample_action (mkStream true [])
                     = Some (sample_action,
                             mkStream true [0; 0; 0; 72; 0; 0; 0; 100; 255; 255; 255; 236;
                                            3; 1; 2; 2; 1])) by reflexivity.
  split; [exact Hwritten|].
  rewrite Hwritten in Hsave. injection Hsave as <-. exact Hload.
Defined.

End ParkFurther.
